(** * Ashtakoota compatibility engine

    A shallow embedding of the eight-factor compatibility scoring of
    [app/agents/tools.py] ([compatibility_ashtakoota] and its data tables)
    and of the role resolution and friendship fold of
    [app/services/compatibility_service.py] ([compute_ashtakoota_raw]),
    together with the properties the specification states about them.

    Conventions of the embedding:
    - Python [int] is [Z]; a number that may be an [int] or a [float]
      (scores, totals) is [Q].  Every value that occurs is a multiple of
      one half below 64, so the floating-point arithmetic of the source
      is exact and [Q] agrees with it.
    - The module-level lookup tables are finite maps ([gmap]) and sets
      ([gset]); [d[k]] on a missing key raises [KeyError], [d.get(k, v)]
      does not.
    - The dictionaries a call returns are insertion-ordered association
      lists ([pydict]), as Python dictionaries are.
    - A function that can raise returns a [result]. *)

From Stdlib Require Import ZArith QArith Qminmax Lia Lqa.
From stdpp Require Import gmap strings list.

#[local] Open Scope string_scope.
#[local] Open Scope Z_scope.

(** ** Exceptions *)

Inductive pykey : Type :=
| KInt (z : Z)
| KStr (s : string).

(** [KeyError(k)], and an exception that comes out of a call into a
    library outside the repository, by its description. *)
Inductive exn : Type :=
| KeyError (k : pykey)
| ExternalError (description : string).

Inductive result (A : Type) : Type :=
| Ok (a : A)
| Raise (e : exn).
Arguments Ok {A} a.
Arguments Raise {A} e.

#[global] Instance pykey_eq_dec : EqDecision pykey.
Proof. solve_decision. Defined.
#[global] Instance exn_eq_dec : EqDecision exn.
Proof. solve_decision. Defined.
#[global] Instance result_eq_dec `{EqDecision A} : EqDecision (result A).
Proof. solve_decision. Defined.

#[global] Instance result_fmap : FMap result := fun A B f m =>
  match m with
  | Ok a => Ok (f a)
  | Raise e => Raise e
  end.
#[global] Instance result_ret : MRet result := fun A a => Ok a.
#[global] Instance result_bind : MBind result := fun A B f m =>
  match m with
  | Ok a => f a
  | Raise e => Raise e
  end.

(** [d[k]]: subscription of a table, raising [KeyError(k)] on a missing key. *)
Definition subscript `{Countable K} {V} (mk : K -> pykey) (d : gmap K V) (k : K)
  : result V :=
  match d !! k with
  | Some v => Ok v
  | None => Raise (KeyError (mk k))
  end.

(** [d.get(k, dflt)]. *)
Definition get_or `{Countable K} {V} (d : gmap K V) (k : K) (dflt : V) : V :=
  default dflt (d !! k).

(** [x is not None], as a boolean. *)
Definition is_Some_b {A} (x : option A) : bool :=
  match x with
  | Some _ => true
  | None => false
  end.

(** ** Insertion-ordered dictionaries *)

Definition pydict (V : Type) : Type := list (string * V).

Fixpoint dict_get {V} (d : pydict V) (k : string) : option V :=
  match d with
  | [] => None
  | (k', v) :: d' => if bool_decide (k' = k) then Some v else dict_get d' k
  end.

(** [d[k] = v]: an existing key keeps its position, a new key goes last. *)
Fixpoint dict_set {V} (d : pydict V) (k : string) (v : V) : pydict V :=
  match d with
  | [] => [(k, v)]
  | (k', v') :: d' =>
      if bool_decide (k' = k) then (k', v) :: d' else (k', v') :: dict_set d' k v
  end.

Definition dict_values {V} (d : pydict V) : list V := d.*2.

Definition dict_keys {V} (d : pydict V) : list string := d.*1.

(** [sum(xs)]: left to right, starting from [0]. *)
Definition py_sum (xs : list Q) : Q := fold_left Qplus xs 0%Q.

(** ** Ashtakoota data tables *)

Definition RASHI_TO_VARNA : gmap Z string := list_to_map [
  (1, "Kshatriya"); (2, "Vaishya"); (3, "Shudra"); (4, "Brahmin");
  (5, "Kshatriya"); (6, "Vaishya"); (7, "Shudra"); (8, "Kshatriya");
  (9, "Kshatriya"); (10, "Vaishya"); (11, "Shudra"); (12, "Brahmin")].

Definition VARNA_HIERARCHY : gmap string Z := list_to_map [
  ("Brahmin", 4); ("Kshatriya", 3); ("Vaishya", 2); ("Shudra", 1)].

Definition RASHI_TO_VASHYA : gmap Z string := list_to_map [
  (1, "Chatushpada"); (2, "Chatushpada"); (3, "Dwipad"); (4, "Jalachar");
  (5, "Chatushpada"); (6, "Dwipad"); (7, "Dwipad"); (8, "Keeta");
  (9, "Dwipad"); (10, "Jalachar"); (11, "Jalachar"); (12, "Jalachar")].

Definition VASHYA_COMPATIBLE : gmap string (list string) := list_to_map [
  ("Chatushpada", ["Chatushpada"]); ("Dwipad", ["Dwipad"]);
  ("Jalachar", ["Jalachar"]); ("Vanachara", ["Vanachara"]);
  ("Keeta", ["Keeta"])].

Definition VASHYA_SPECIAL : gmap (Z * Z) Z := list_to_map [
  ((1, 5), 2); ((5, 1), 2); ((2, 7), 2); ((7, 2), 2); ((3, 6), 2); ((6, 3), 2);
  ((4, 8), 1); ((8, 4), 1); ((9, 12), 2); ((12, 9), 2); ((10, 11), 1);
  ((11, 10), 1)].

(** The items of [NAKSHATRA_TO_YONI] in source order; the construction of
    [YONI_COMPATIBILITY] iterates over its values. *)
Definition NAKSHATRA_TO_YONI_items : list (Z * string) := [
  (1, "Ashwa"); (2, "Gaja"); (3, "Mesha"); (4, "Sarpa"); (5, "Sarpa");
  (6, "Shwan"); (7, "Marjara"); (8, "Mesha"); (9, "Marjara"); (10, "Mushaka");
  (11, "Mushaka"); (12, "Gau"); (13, "Mahisha"); (14, "Vyaghra");
  (15, "Mahisha"); (16, "Vyaghra"); (17, "Mriga"); (18, "Mriga");
  (19, "Shwan"); (20, "Vanara"); (21, "Nakula"); (22, "Vanara");
  (23, "Simha"); (24, "Ashwa"); (25, "Simha"); (26, "Gau"); (27, "Gaja")].

Definition NAKSHATRA_TO_YONI : gmap Z string :=
  list_to_map NAKSHATRA_TO_YONI_items.

Definition FRIENDLY_PAIRS_items : list (string * string) := [
  ("Ashva", "Sarpa"); ("Ashva", "Mriga"); ("Ashva", "Vana");
  ("Gaja", "Mesha"); ("Gaja", "Mahisha"); ("Gaja", "Vana");
  ("Mesha", "Gau"); ("Mesha", "Mahisha");
  ("Sarpa", "Gaja"); ("Sarpa", "Ashva");
  ("Shvana", "Vana");
  ("Marjara", "Mriga"); ("Marjara", "Simha");
  ("Nakula", "Matsya");
  ("Mushaka", "Marjara");
  ("Gau", "Mesha"); ("Gau", "Vyaghra");
  ("Mahisha", "Gaja"); ("Mahisha", "Mesha");
  ("Vyaghra", "Gau");
  ("Mriga", "Ashva"); ("Mriga", "Marjara");
  ("Vana", "Ashva"); ("Vana", "Gaja"); ("Vana", "Shvana");
  ("Simha", "Marjara");
  ("Matsya", "Nakula")].

Definition ENEMY_PAIRS_items : list (string * string) := [
  ("Ashva", "Mahisha"); ("Gaja", "Simha"); ("Mesha", "Vana");
  ("Sarpa", "Nakula");
  ("Shvana", "Mriga"); ("Marjara", "Mushaka"); ("Nakula", "Sarpa");
  ("Gau", "Vyaghra"); ("Mahisha", "Ashva"); ("Vyaghra", "Gau");
  ("Mriga", "Shvana"); ("Vana", "Mesha"); ("Simha", "Gaja");
  ("Mushaka", "Marjara")].

Definition HIGHLY_INIMICAL_PAIRS_items : list (string * string) := [
  ("Ashva", "Mahisha"); ("Mahisha", "Ashva");
  ("Gaja", "Simha"); ("Simha", "Gaja");
  ("Mesha", "Vana"); ("Vana", "Mesha");
  ("Nakula", "Sarpa"); ("Sarpa", "Nakula");
  ("Mriga", "Shvana"); ("Shvana", "Mriga");
  ("Marjara", "Mushaka"); ("Mushaka", "Marjara");
  ("Gau", "Vyaghra"); ("Vyaghra", "Gau")].

(** [set([...])] *)
Definition FRIENDLY_PAIRS : gset (string * string) :=
  list_to_set FRIENDLY_PAIRS_items.
Definition ENEMY_PAIRS : gset (string * string) :=
  list_to_set ENEMY_PAIRS_items.
Definition HIGHLY_INIMICAL_PAIRS : gset (string * string) :=
  list_to_set HIGHLY_INIMICAL_PAIRS_items.

(** The body of the double loop that fills [YONI_COMPATIBILITY]. *)
Definition yoni_cell (y1 y2 : string) : Z :=
  let pair := (y1, y2) in
  if bool_decide (y1 = y2) then 4
  else if bool_decide (pair ∈ HIGHLY_INIMICAL_PAIRS) then 0
  else if bool_decide (pair ∈ FRIENDLY_PAIRS)
          || bool_decide ((y2, y1) ∈ FRIENDLY_PAIRS) then 3
  else if bool_decide (pair ∈ ENEMY_PAIRS)
          || bool_decide ((y2, y1) ∈ ENEMY_PAIRS) then 1
  else 2.

(** [for y1 in NAKSHATRA_TO_YONI.values(): for y2 in ...values(): ...] *)
Definition build_YONI_COMPATIBILITY (values : list string)
  : gmap (string * string) Z :=
  foldl (fun m y1 =>
           foldl (fun m y2 => <[(y1, y2) := yoni_cell y1 y2]> m) m values)
        ∅ values.

Definition YONI_COMPATIBILITY : gmap (string * string) Z :=
  build_YONI_COMPATIBILITY (NAKSHATRA_TO_YONI_items.*2).

Definition RASHI_LORDS : gmap Z string := list_to_map [
  (1, "Mars"); (2, "Venus"); (3, "Mercury"); (4, "Moon"); (5, "Sun");
  (6, "Mercury"); (7, "Venus"); (8, "Mars"); (9, "Jupiter"); (10, "Saturn");
  (11, "Saturn"); (12, "Jupiter")].

(** The inner dictionaries of [PLANET_RELATIONSHIPS] all have the three keys
    ['friends'], ['enemies'] and ['neutral']. *)
Record relationships : Type := {
  friends : list string;
  enemies : list string;
  neutral : list string;
}.

Definition PLANET_RELATIONSHIPS : gmap string relationships := list_to_map [
  ("Sun", {| friends := ["Moon"; "Mars"; "Jupiter"];
             enemies := ["Venus"; "Saturn"];
             neutral := ["Mercury"] |});
  ("Moon", {| friends := ["Sun"; "Mercury"];
              enemies := [];
              neutral := ["Mars"; "Jupiter"; "Venus"; "Saturn"] |});
  ("Mars", {| friends := ["Sun"; "Moon"; "Jupiter"];
              enemies := ["Mercury"];
              neutral := ["Venus"; "Saturn"] |});
  ("Mercury", {| friends := ["Sun"; "Venus"];
                 enemies := ["Moon"];
                 neutral := ["Mars"; "Jupiter"; "Saturn"] |});
  ("Jupiter", {| friends := ["Sun"; "Moon"; "Mars"];
                 enemies := ["Mercury"; "Venus"];
                 neutral := ["Saturn"] |});
  ("Venus", {| friends := ["Mercury"; "Saturn"];
               enemies := ["Sun"; "Moon"];
               neutral := ["Mars"; "Jupiter"] |});
  ("Saturn", {| friends := ["Mercury"; "Venus"];
                enemies := ["Sun"; "Moon"; "Mars"];
                neutral := ["Jupiter"] |})].

Definition NAKSHATRA_TO_GANA : gmap Z string := list_to_map [
  (1, "Deva"); (2, "Manushya"); (3, "Rakshasa"); (4, "Manushya"); (5, "Deva");
  (6, "Manushya"); (7, "Deva"); (8, "Deva"); (9, "Rakshasa"); (10, "Rakshasa");
  (11, "Manushya"); (12, "Manushya"); (13, "Deva"); (14, "Rakshasa");
  (15, "Deva"); (16, "Rakshasa"); (17, "Deva"); (18, "Rakshasa");
  (19, "Rakshasa"); (20, "Manushya"); (21, "Manushya"); (22, "Deva");
  (23, "Rakshasa"); (24, "Rakshasa"); (25, "Manushya"); (26, "Manushya");
  (27, "Deva")].

(** One row of [BHAKOOT_MATRIX]: the cells [(r, 1) .. (r, 12)]. *)
Definition bhakoot_row (r : Z) (cells : list Z) : list ((Z * Z) * Z) :=
  imap (fun j v => ((r, Z.of_nat (S j)), v)) cells.

Definition BHAKOOT_MATRIX : gmap (Z * Z) Z := list_to_map (
  bhakoot_row 1  [7; 0; 7; 7; 0; 0; 7; 0; 0; 7; 7; 0] ++
  bhakoot_row 2  [0; 7; 0; 7; 7; 0; 0; 7; 0; 0; 7; 7] ++
  bhakoot_row 3  [7; 0; 7; 0; 7; 7; 0; 0; 7; 0; 0; 7] ++
  bhakoot_row 4  [7; 7; 0; 7; 0; 7; 7; 0; 0; 7; 0; 0] ++
  bhakoot_row 5  [0; 7; 7; 0; 7; 0; 7; 7; 0; 0; 7; 0] ++
  bhakoot_row 6  [0; 0; 7; 7; 0; 7; 0; 7; 7; 0; 0; 7] ++
  bhakoot_row 7  [7; 0; 0; 7; 7; 0; 7; 0; 7; 7; 0; 0] ++
  bhakoot_row 8  [0; 7; 0; 0; 7; 7; 0; 7; 0; 7; 7; 0] ++
  bhakoot_row 9  [0; 0; 7; 0; 0; 7; 7; 0; 7; 0; 7; 7] ++
  bhakoot_row 10 [7; 0; 0; 7; 0; 0; 7; 7; 0; 7; 0; 7] ++
  bhakoot_row 11 [7; 7; 0; 0; 7; 0; 0; 7; 7; 0; 7; 0] ++
  bhakoot_row 12 [0; 7; 7; 0; 0; 7; 0; 0; 7; 7; 0; 7]).

Definition NAKSHATRA_TO_NADI : gmap Z string := list_to_map [
  (1, "Adi"); (2, "Madhya"); (3, "Antya"); (4, "Adi"); (5, "Madhya");
  (6, "Antya"); (7, "Adi"); (8, "Madhya"); (9, "Antya"); (10, "Adi");
  (11, "Madhya"); (12, "Antya"); (13, "Adi"); (14, "Madhya"); (15, "Antya");
  (16, "Adi"); (17, "Madhya"); (18, "Antya"); (19, "Adi"); (20, "Madhya");
  (21, "Antya"); (22, "Adi"); (23, "Madhya"); (24, "Antya"); (25, "Adi");
  (26, "Madhya"); (27, "Antya")].

(** ** The eight scorers

    In the source these are local functions of [compatibility_ashtakoota];
    none of them captures a variable of the enclosing call. *)

(** 1. Varna *)
Definition varna_score (r1 r2 : Z) : result Z :=
  v1 ← subscript KInt RASHI_TO_VARNA r1;
  v2 ← subscript KInt RASHI_TO_VARNA r2;
  if bool_decide (v1 = v2) then mret 1
  else
    h1 ← subscript KStr VARNA_HIERARCHY v1;
    h2 ← subscript KStr VARNA_HIERARCHY v2;
    if bool_decide (h1 >= h2) then mret 1 else mret 0.

(** 2. Vashya *)
Definition vashya_score (r1 r2 : Z) : result Z :=
  match VASHYA_SPECIAL !! (r1, r2) with
  | Some v => mret v
  | None =>
      v1 ← subscript KInt RASHI_TO_VASHYA r1;
      v2 ← subscript KInt RASHI_TO_VASHYA r2;
      if bool_decide (v1 = v2) || bool_decide (v2 ∈ get_or VASHYA_COMPATIBLE v1 [])
      then mret 2 else mret 1
  end.

(** 3. Tara.  [%] with a positive divisor is the floor modulus of [Z];
    [1.5] is [3 # 2]. *)
Definition favorable : gset Z := {[2; 4; 6; 8; 9]}.

Definition tara_score (boy_nakshatra girl_nakshatra : Z) : Q :=
  let d1 := (boy_nakshatra - girl_nakshatra) `mod` 27 in
  let d1 := if bool_decide (d1 = 0) then 27 else d1 in
  let rem1 := d1 `mod` 9 in
  let rem1 := if bool_decide (rem1 = 0) then 9 else rem1 in
  let d2 := (girl_nakshatra - boy_nakshatra) `mod` 27 in
  let d2 := if bool_decide (d2 = 0) then 27 else d2 in
  let rem2 := d2 `mod` 9 in
  let rem2 := if bool_decide (rem2 = 0) then 9 else rem2 in
  let even1 := bool_decide (rem1 ∈ favorable) in
  let even2 := bool_decide (rem2 ∈ favorable) in
  if even1 && even2 then 3%Q
  else if even1 || even2 then (3 # 2)%Q
  else 0%Q.

(** 4. Yoni *)
Definition yoni_score (n1 n2 : Z) : result Z :=
  y1 ← subscript KInt NAKSHATRA_TO_YONI n1;
  y2 ← subscript KInt NAKSHATRA_TO_YONI n2;
  match YONI_COMPATIBILITY !! (y1, y2) with
  | Some v => mret v
  | None =>
      match YONI_COMPATIBILITY !! (y2, y1) with
      | Some v => mret v
      | None => mret 2
      end
  end.

(** 5. Maitri (Graha Maitri) *)
Definition maitri_score (r1 r2 : Z) : result Z :=
  lord1 ← subscript KInt RASHI_LORDS r1;
  lord2 ← subscript KInt RASHI_LORDS r2;
  if bool_decide (lord1 = lord2) then mret 5
  else
    rel ← subscript KStr PLANET_RELATIONSHIPS lord1;
    if bool_decide (lord2 ∈ friends rel) then mret 4
    else
      rel ← subscript KStr PLANET_RELATIONSHIPS lord1;
      if bool_decide (lord2 ∈ neutral rel) then mret 3
      else
        rel ← subscript KStr PLANET_RELATIONSHIPS lord1;
        if bool_decide (lord2 ∈ enemies rel) then mret 1
        else mret 0.

(** 6. Gana.  The first parameter is the girl's nakshatra. *)
Definition scoring_table : gmap (string * string) Z := list_to_map [
  (("Deva", "Deva"), 6);
  (("Deva", "Manushya"), 6);
  (("Deva", "Rakshasa"), 0);
  (("Manushya", "Deva"), 5);
  (("Manushya", "Manushya"), 6);
  (("Manushya", "Rakshasa"), 1);
  (("Rakshasa", "Deva"), 1);
  (("Rakshasa", "Manushya"), 0);
  (("Rakshasa", "Rakshasa"), 6)].

Definition gana_score (girl_nakshatra boy_nakshatra : Z) : result Z :=
  g1 ← subscript KInt NAKSHATRA_TO_GANA girl_nakshatra;
  g2 ← subscript KInt NAKSHATRA_TO_GANA boy_nakshatra;
  mret (get_or scoring_table (g1, g2) 0).

(** 7. Bhakoot *)
Definition bhakoot_score (r1 r2 : Z) : Z :=
  get_or BHAKOOT_MATRIX (r1, r2) 0.

(** 8. Nadi *)
Definition nadi_score (n1 n2 : Z) : result Z :=
  nadi1 ← subscript KInt NAKSHATRA_TO_NADI n1;
  nadi2 ← subscript KInt NAKSHATRA_TO_NADI n2;
  mret (if bool_decide (nadi1 ≠ nadi2) then 8 else 0).

(** Dosha cancellations *)
Definition nadi_dosha_cancel (r1 n1 r2 n2 : Z) : bool :=
  (bool_decide (r1 = r2) && bool_decide (n1 ≠ n2))
  || (bool_decide (n1 = n2) && bool_decide (r1 ≠ r2))
  || (bool_decide (n1 = n2) && bool_decide (r1 = r2)).

Definition bhakoot_dosha_cancel (r1 r2 : Z) : bool :=
  bool_decide (r1 = r2).

(** ** The result of a scoring call *)

Record ashtakoota : Type := {
  scores : pydict Q;
  total : Q;
  explanation : pydict string;
  dosha_cancellation : pydict bool;
}.

Definition explanation_literal : pydict string := [
  ("Varna", "Varna (Personality): Based on Moon sign caste classification.");
  ("Vashya", "Vashya (Dominance/Mutual Influence): Based on Rashi mutual influence.");
  ("Tara", "Tara (Health): Based on Nakshatra distance.");
  ("Yoni", "Yoni (Sexual): Based on Nakshatra yoni animal compatibility.");
  ("Maitri", "Maitri (Friendship): Based on Moon lord friendship.");
  ("Gana", "Gana (Temperament): Based on Nakshatra gana type.");
  ("Bhakoot", "Bhakoot (Emotional): Based on Moon sign distance matrix.");
  ("Nadi", "Nadi (Future Generation): Based on Nakshatra nadi type.")].

(** The values of the [scores] literal are evaluated in source order, so the
    first failing scorer decides the exception.  [boy_pada] and [girl_pada]
    are accepted and never read. *)
Definition compatibility_ashtakoota
    (boy_rashi boy_nakshatra boy_pada girl_rashi girl_nakshatra girl_pada : Z)
  : result ashtakoota :=
  varna ← varna_score boy_rashi girl_rashi;
  vashya ← vashya_score boy_rashi girl_rashi;
  let tara := tara_score boy_nakshatra girl_nakshatra in
  yoni ← yoni_score boy_nakshatra girl_nakshatra;
  maitri ← maitri_score boy_rashi girl_rashi;
  gana ← gana_score girl_nakshatra boy_nakshatra;
  let bhakoot := bhakoot_score boy_rashi girl_rashi in
  nadi ← nadi_score boy_nakshatra girl_nakshatra;
  let scores := [
    ("Varna", inject_Z varna);
    ("Vashya", inject_Z vashya);
    ("Tara", tara);
    ("Yoni", inject_Z yoni);
    ("Maitri", inject_Z maitri);
    ("Gana", inject_Z gana);
    ("Bhakoot", inject_Z bhakoot);
    ("Nadi", inject_Z nadi)] in
  let total := py_sum (dict_values scores) in
  let nadi_cancel :=
    nadi_dosha_cancel boy_rashi boy_nakshatra girl_rashi girl_nakshatra in
  let bhakoot_cancel := bhakoot_dosha_cancel boy_rashi girl_rashi in
  mret {| scores := scores;
          total := total;
          explanation := explanation_literal;
          dosha_cancellation :=
            [("Nadi", nadi_cancel); ("Bhakoot", bhakoot_cancel)] |}.

(** The dictionary a scoring call returns, as its consumers (for instance
    [json.dumps]) see it: the four keys of the [return] literal. *)
#[local] Unset Elimination Schemes.
Inductive pyval : Type :=
| VNum (q : Q)
| VBool (b : bool)
| VStr (s : string)
| VDict (d : list (string * pyval)).
#[local] Set Elimination Schemes.

Definition as_dict (ak : ashtakoota) : pydict pyval := [
  ("scores", VDict (prod_map id VNum <$> scores ak));
  ("total", VNum (total ak));
  ("explanation", VDict (prod_map id VStr <$> explanation ak));
  ("dosha_cancellation", VDict (prod_map id VBool <$> dosha_cancellation ak))].

(** ** Role resolution and the friendship fold

    [compute_ashtakoota_raw] of [app/services/compatibility_service.py], from
    the point where the two panchanga dictionaries have been obtained: the
    geocoding and ephemeris calls before that point are external, and of
    their results only the three entries below are read. *)

Record panchanga : Type := {
  moon_rashi : Z;
  nakshatra : Z;
  pada : Z;
}.

(** Calls of [run_ak] are recorded, so that "how many orientations were
    evaluated" is a property of the model: a computation threads the log of
    the (boy, girl) arguments of the calls made so far, and may raise. *)
Definition traced (A : Type) : Type :=
  list (panchanga * panchanga) -> result A * list (panchanga * panchanga).

#[global] Instance traced_ret : MRet traced := fun A a log => (Ok a, log).
#[global] Instance traced_bind : MBind traced := fun A B f m log =>
  match m log with
  | (Ok a, log') => f a log'
  | (Raise e, log') => (Raise e, log')
  end.

(** A step that makes no scorer call. *)
Definition untraced {A} (r : result A) : traced A := fun log => (r, log).

Definition run_ak (boy girl : panchanga) : traced ashtakoota := fun log =>
  (compatibility_ashtakoota
     (moon_rashi boy) (nakshatra boy) (pada boy)
     (moon_rashi girl) (nakshatra girl) (pada girl),
   (log ++ [(boy, girl)])%list).

(** [v or 0] on a number. *)
Definition or_0 (v : Q) : Q := if Qeq_bool v 0 then 0%Q else v.

(** [hetero_love], lines 71-76.  A gender is [None] or a string. *)
Definition is_male_or_female (g : option string) : bool :=
  bool_decide (g = Some "male") || bool_decide (g = Some "female").

Definition hetero_love (compatibility_type user_gender other_gender : option string)
  : bool :=
  bool_decide (compatibility_type = Some "love")
  && is_male_or_female user_gender
  && is_male_or_female other_gender
  && bool_decide (user_gender ≠ other_gender).

(** Lines 78-98: the orientation that is scored. *)
Definition resolve_orientation
    (user_details other_details : panchanga)
    (user_gender other_gender compatibility_type : option string)
  : traced ashtakoota :=
  if hetero_love compatibility_type user_gender other_gender then
    if bool_decide (user_gender = Some "male")
    then run_ak user_details other_details
    else run_ak other_details user_details
  else
    a_first ← run_ak user_details other_details;
    a_swap ← run_ak other_details user_details;
    mret (if Qle_bool (total a_swap) (total a_first) then a_first else a_swap).

(** Lines 101-111: the body of the [try] block.  The source mutates [ak] and
    its [scores] and [explanation] dictionaries in place; [ak] is the only
    reference to them.  On an [ashtakoota] no statement of the block can
    raise, so the [except] clause is never entered, and the tests
    ['scores' in ak] and ['explanation' in ak] hold. *)
Definition friendship_fold (ak : ashtakoota) : ashtakoota :=
  let scores0 := scores ak in
  let yoni_score := or_0 (default 0%Q (dict_get scores0 "Yoni")) in
  let bhakoot_score := or_0 (default 0%Q (dict_get scores0 "Bhakoot")) in
  let scores1 := dict_set scores0 "Bhakoot" (Qmin 7 (bhakoot_score + yoni_score)) in
  let scores2 := dict_set scores1 "Yoni" 0%Q in
  let explanation1 :=
    dict_set (explanation ak) "Yoni"
      "Not applicable for friendship. Yoni folded under emotional closeness." in
  let explanation2 :=
    dict_set explanation1 "Bhakoot"
      "Bhakoot (Emotional): Includes Yoni-derived closeness for friendship." in
  let explanation3 :=
    dict_set explanation2 "Vashya"
      "Vashya (Mutual Influence): Based on Rashi mutual influence for friendship compatibility." in
  {| scores := scores2;
     total := py_sum (or_0 <$> dict_values scores2);
     explanation := explanation3;
     dosha_cancellation := dosha_cancellation ak |}.

Definition compute_ashtakoota_raw
    (user_details other_details : panchanga)
    (user_gender other_gender compatibility_type : option string)
  : traced (option ashtakoota) :=
  if negb (bool_decide (compatibility_type = Some "love")
           || bool_decide (compatibility_type = Some "friendship"))
  then mret None
  else
    ak ← resolve_orientation user_details other_details
           user_gender other_gender compatibility_type;
    mret (Some (if bool_decide (compatibility_type = Some "friendship")
                then friendship_fold ak else ak)).

(** ** The service from its first line, and its callers

    The rest of [app/services/compatibility_service.py] and the scoring part
    of the compatibility endpoint of [app/routers/users.py].  What these
    reach outside the repository is a parameter: the geocoder, the ephemeris
    ([get_panchanga]), [json.dumps], and the two database tables behind
    [crud.get_user] and [crud.get_partner].  The geocoder's call may
    return or raise, and [_get_lat_lon] catches two of its exceptions only;
    the other parameters are total functions: an exception of the
    ephemeris, of [json.dumps] or of the database is outside the model. *)

(** What [_geolocator.geocode(city_name, timeout=30)] does: it returns a
    location (which is truthy) or [None], or it raises [GeocoderTimedOut],
    [GeocoderUnavailable], or some other exception. *)
Inductive geocoded : Type :=
| Location (latitude longitude : Q)
| NoLocation
| GeocoderTimedOut
| GeocoderUnavailable
| OtherException (description : string).

Section Collaborators.

(** A birth instant ([datetime]); never falsy. *)
Variable datetime : Type.

(** The attributes of a [User] or [Partner] row that are read. *)
Record person : Type := {
  city_of_birth : option string;
  time_of_birth : option datetime;
  gender : option string;
}.

(** [Nominatim.geocode]. *)
Variable geocode : string -> geocoded.

(** [get_panchanga] on a birth instant, a longitude and a latitude (the
    timezone argument is the constant ['Asia/Kolkata']). *)
Variable panchanga_of : datetime -> Q -> Q -> panchanga.

Variable json_dumps : ashtakoota -> string.

(** [_get_lat_lon], lines 12-21.  The [except] clause names
    [GeocoderTimedOut] and [GeocoderUnavailable]; after either the function
    falls through to [return None, None].  Any other exception of the call
    leaves the function. *)
Definition _get_lat_lon (city_name : option string)
  : result (option Q * option Q) :=
  match city_name with
  | None => Ok (None, None)
  | Some name =>
      if bool_decide (name = "") then Ok (None, None)
      else match geocode name with
           | Location latitude longitude => Ok (Some latitude, Some longitude)
           | NoLocation => Ok (None, None)
           | GeocoderTimedOut | GeocoderUnavailable => Ok (None, None)
           | OtherException description => Raise (ExternalError description)
           end
  end.

(** Truth values: a string attribute is falsy when [None] or empty, a
    coordinate when [None] or zero. *)
Definition truthy_str (x : option string) : bool :=
  match x with
  | Some s => negb (bool_decide (s = ""))
  | None => false
  end.

Definition truthy_float (x : option Q) : bool :=
  match x with
  | Some q => negb (Qeq_bool q 0)
  | None => false
  end.

(** [compute_ashtakoota_raw] from line 29; from line 58 on it is the
    definition of the same name above, which this one ends in.  The two
    calls of [_get_lat_lon] are outside any [try]: what they raise leaves
    the service, the first before the second is made. *)
Definition compute_ashtakoota_raw_entry
    (user counterpart : person) (compatibility_type : option string)
  : traced (option ashtakoota) :=
  if negb (bool_decide (compatibility_type = Some "love")
           || bool_decide (compatibility_type = Some "friendship"))
  then mret None
  else if negb (truthy_str (city_of_birth user)) || negb (is_Some_b (time_of_birth user))
  then mret None
  else if negb (truthy_str (city_of_birth counterpart))
          || negb (is_Some_b (time_of_birth counterpart))
  then mret None
  else
    '(p_lat, p_lon) ← untraced (_get_lat_lon (city_of_birth user));
    '(o_lat, o_lon) ← untraced (_get_lat_lon (city_of_birth counterpart));
    if negb (truthy_float p_lat && truthy_float p_lon
             && truthy_float o_lat && truthy_float o_lon)
    then mret None
    else
      match time_of_birth user, p_lon, p_lat,
            time_of_birth counterpart, o_lon, o_lat with
      | Some user_time, Some p_lon, Some p_lat,
        Some other_time, Some o_lon, Some o_lat =>
          let user_details := panchanga_of user_time p_lon p_lat in
          let other_details := panchanga_of other_time o_lon o_lat in
          compute_ashtakoota_raw user_details other_details
            (gender user) (gender counterpart) compatibility_type
      | _, _, _, _, _, _ => mret None
      end.

(** The two tables, by primary key. *)
Record database : Type := {
  users : gmap string person;
  partners : gmap string person;
}.

(** [compute_ashtakoota_raw_json_for_context], lines 117-148.  The two id
    lists may be [None]. *)
Definition compute_ashtakoota_raw_json_for_context
    (db : database) (current_user_id : string)
    (participant_user_ids participant_partner_ids : option (list string))
    (compatibility_type : option string)
  : traced (option string) :=
  if negb (bool_decide (compatibility_type = Some "love")
           || bool_decide (compatibility_type = Some "friendship"))
  then mret None
  else
    let uids := default [] participant_user_ids in
    let pids := default [] participant_partner_ids in
    if negb (bool_decide (length uids + length pids = 1)%nat) then mret None
    else
      match users db !! current_user_id with
      | None => mret None
      | Some main_user =>
          let counterpart :=
            match uids with
            | other_uid :: _ =>
                if bool_decide (other_uid ≠ current_user_id)
                then users db !! other_uid else None
            | [] =>
                match pids with
                | pid :: _ => partners db !! pid
                | [] => None
                end
            end in
          match counterpart with
          | None => mret None
          | Some counterpart =>
              ak ← compute_ashtakoota_raw_entry main_user counterpart
                     compatibility_type;
              mret (json_dumps <$> ak)
          end
      end.

(** A city the service can use: a non-empty name that the geocoder resolves
    to coordinates, neither of which is zero. *)
Definition usable_place (city : option string) : Prop :=
  ∃ name latitude longitude,
    city = Some name ∧ name ≠ ""
    ∧ geocode name = Location latitude longitude
    ∧ ¬ (latitude == 0)%Q ∧ ¬ (longitude == 0)%Q.

(** The lookup of a city ends inside [_get_lat_lon]: the geocoder returns,
    or raises one of the two exceptions that are caught there. *)
Definition lookup_handled (city : option string) : Prop :=
  ∀ name description,
    city = Some name → geocode name ≠ OtherException description.

(** A person with a non-empty birth city and a birth time: the two guards
    of lines 33-36. *)
Definition has_birth_details (p : person) : Prop :=
  (∃ name, city_of_birth p = Some name ∧ name ≠ "")
  ∧ is_Some (time_of_birth p).

End Collaborators.

Arguments city_of_birth {datetime} _.
Arguments time_of_birth {datetime} _.
Arguments gender {datetime} _.
Arguments users {datetime} _.
Arguments partners {datetime} _.
Arguments has_birth_details {datetime} _.

(** The scoring part of [_calculate_compatibility] in
    [app/routers/users.py], lines 379-409: the roles are chosen and the
    scorer is called once.  [user_gender] is [user.gender]; an exception of
    the call becomes the endpoint's HTTP 500. *)
Definition calculate_compatibility_scoring
    (user_details other_details : panchanga)
    (user_gender other_person_gender compatibility_type : option string)
  : result ashtakoota :=
  let user_gender :=
    if truthy_str user_gender then user_gender else Some "unknown" in
  let other_gender := other_person_gender in
  if bool_decide (compatibility_type = Some "love")
     && is_male_or_female user_gender
     && is_male_or_female other_gender
     && bool_decide (user_gender ≠ other_gender)
  then
    if bool_decide (user_gender = Some "male")
    then compatibility_ashtakoota
           (moon_rashi user_details) (nakshatra user_details) (pada user_details)
           (moon_rashi other_details) (nakshatra other_details) (pada other_details)
    else compatibility_ashtakoota
           (moon_rashi other_details) (nakshatra other_details) (pada other_details)
           (moon_rashi user_details) (nakshatra user_details) (pada user_details)
  else compatibility_ashtakoota
         (moon_rashi user_details) (nakshatra user_details) (pada user_details)
         (moon_rashi other_details) (nakshatra other_details) (pada other_details).

(** [_calculate_max_score], lines 121-128; its first argument is not read. *)
Definition _calculate_max_score (compatibility_type : option string) : Z :=
  if bool_decide (compatibility_type = Some "friendship") then 36 - 4 else 36.

(** * Vocabulary of the properties

    Domains, the shape of a scoring result, and the predicates in which the
    properties below are stated. *)

(** The closed domains of sign, asterism and subdivision. *)
Definition valid_rashi (r : Z) : Prop := 1 ≤ r ≤ 12.
Definition valid_nakshatra (n : Z) : Prop := 1 ≤ n ≤ 27.
Definition valid_pada (p : Z) : Prop := 1 ≤ p ≤ 4.

Definition valid_profile (x : panchanga) : Prop :=
  valid_rashi (moon_rashi x) ∧ valid_nakshatra (nakshatra x) ∧ valid_pada (pada x).

(** The same domains as lists, for the checks that run over all of them. *)
Definition rashis : list Z := seqZ 1 12.
Definition nakshatras : list Z := seqZ 1 27.

(** A scorer returned, and its value is one of [allowed]. *)
Definition returns_in (allowed : list Z) (r : result Z) : bool :=
  match r with
  | Ok v => bool_decide (v ∈ allowed)
  | Raise _ => false
  end.

(** The [scores] literal of [compatibility_ashtakoota], by its values. *)
Definition scores_literal (varna vashya tara yoni maitri gana bhakoot nadi : Q)
  : pydict Q := [
  ("Varna", varna); ("Vashya", vashya); ("Tara", tara); ("Yoni", yoni);
  ("Maitri", maitri); ("Gana", gana); ("Bhakoot", bhakoot); ("Nadi", nadi)].

(** [scored_as r1 n1 r2 n2 ak]: [ak] is the dictionary built from the eight
    scorer outputs for primary [(r1, n1)] and secondary [(r2, n2)]. *)
Inductive scored_as (r1 n1 r2 n2 : Z) : ashtakoota → Prop :=
| Scored varna vashya yoni maitri gana nadi :
    varna_score r1 r2 = Ok varna →
    vashya_score r1 r2 = Ok vashya →
    yoni_score n1 n2 = Ok yoni →
    maitri_score r1 r2 = Ok maitri →
    gana_score n2 n1 = Ok gana →
    nadi_score n1 n2 = Ok nadi →
    let scores :=
      scores_literal (inject_Z varna) (inject_Z vashya) (tara_score n1 n2)
        (inject_Z yoni) (inject_Z maitri) (inject_Z gana)
        (inject_Z (bhakoot_score r1 r2)) (inject_Z nadi) in
    scored_as r1 n1 r2 n2
      {| scores := scores;
         total := py_sum (dict_values scores);
         explanation := explanation_literal;
         dosha_cancellation :=
           [("Nadi", nadi_dosha_cancel r1 n1 r2 n2);
            ("Bhakoot", bhakoot_dosha_cancel r1 r2)] |}.

(** [scored_as] on two profiles; the first is the primary (the [boy_*]
    arguments of the call). *)
Definition scored_pair (primary secondary : panchanga) (ak : ashtakoota) : Prop :=
  scored_as (moon_rashi primary) (nakshatra primary)
            (moon_rashi secondary) (nakshatra secondary) ak.

(** The call [run_ak] makes, without the log. *)
Definition score_profiles (boy girl : panchanga) : result ashtakoota :=
  compatibility_ashtakoota
    (moon_rashi boy) (nakshatra boy) (pada boy)
    (moon_rashi girl) (nakshatra girl) (pada girl).

(** The two report kinds: Romantic is ['love'], Friendship ['friendship']. *)
Definition is_kind (compatibility_type : option string) : Prop :=
  compatibility_type = Some "love" ∨ compatibility_type = Some "friendship".

(** A score lies in a finite set of rationals; a result has, under a factor
    name, a score in such a set. *)
Definition in_set (q : Q) (allowed : list Q) : Prop := Exists (Qeq q) allowed.

Definition has_score (ak : ashtakoota) (name : string) (allowed : list Q) : Prop :=
  ∃ q, dict_get (scores ak) name = Some q ∧ in_set q allowed.

(** The sets the specification documents for the eight factors. *)
Definition documented_sets (ak : ashtakoota) : Prop :=
  has_score ak "Varna" [0; 1]%Q
  ∧ has_score ak "Vashya" [1; 2]%Q
  ∧ has_score ak "Tara" [0; 3 # 2; 3]%Q
  ∧ has_score ak "Yoni" [0; 1; 2; 3; 4]%Q
  ∧ has_score ak "Maitri" [0; 1; 3; 4; 5]%Q
  ∧ has_score ak "Gana" [0; 1; 5; 6]%Q
  ∧ has_score ak "Bhakoot" [0; 7]%Q
  ∧ has_score ak "Nadi" [0; 8]%Q.

(** The sets after the friendship fold: Yoni is zeroed and Bhakoot has
    absorbed it. *)
Definition friendship_sets (ak : ashtakoota) : Prop :=
  has_score ak "Varna" [0; 1]%Q
  ∧ has_score ak "Vashya" [1; 2]%Q
  ∧ has_score ak "Tara" [0; 3 # 2; 3]%Q
  ∧ has_score ak "Yoni" [0]%Q
  ∧ has_score ak "Maitri" [0; 1; 3; 4; 5]%Q
  ∧ has_score ak "Gana" [0; 1; 5; 6]%Q
  ∧ has_score ak "Bhakoot" [0; 2; 3; 4; 7]%Q
  ∧ has_score ak "Nadi" [0; 8]%Q.

(** The range facts of a scored dictionary, collected. *)
Record scored_ranges (varna vashya yoni maitri gana bhakoot nadi : Z) (tara : Q)
  : Prop := {
  varna_in : varna ∈ [0; 1];
  vashya_in : vashya ∈ [1; 2];
  tara_in : tara ∈ [0; 3 # 2; 3]%Q;
  yoni_in : yoni ∈ [0; 2; 3; 4];
  maitri_in : maitri ∈ [0; 1; 3; 4; 5];
  gana_in : gana ∈ [0; 1; 5; 6];
  bhakoot_in : bhakoot ∈ [0; 7];
  nadi_in : nadi ∈ [0; 8];
}.

(** A Romantic report on two profiles of specified, opposite genders. *)
Definition romantic_opposite (kind gA gB : option string) : Prop :=
  kind = Some "love"
  ∧ ((gA = Some "male" ∧ gB = Some "female")
     ∨ (gA = Some "female" ∧ gB = Some "male")).

(** The note the fold writes for Yoni. *)
Definition yoni_friendship_note : string :=
  "Not applicable for friendship. Yoni folded under emotional closeness.".

(** The entries of the dictionary the service returns, and every number
    that occurs in such a dictionary: the numeric entries and the numeric
    entries of the dictionaries nested in it. *)
Definition result_keys : list string :=
  ["scores"; "total"; "explanation"; "dosha_cancellation"].

Definition entry_numbers (v : pyval) : list Q :=
  match v with
  | VNum q => [q]
  | VDict d => d.*2 ≫= (λ w, match w with VNum q => [q] | _ => [] end)
  | _ => []
  end.

Definition numbers_in (d : pydict pyval) : list Q := d.*2 ≫= entry_numbers.

(** What two identical profiles are documented to score. *)
Definition identical_profiles_result : ashtakoota :=
  {| scores := scores_literal 1 2 3 4 5 6 7 0;
     total := 28;
     explanation := explanation_literal;
     dosha_cancellation := [("Nadi", true); ("Bhakoot", true)] |}.

(** The rule in the words of the specification, to compare with
    [tara_score]: step counts in both directions, their remainders, and the
    number of favourable remainders. *)
Definition step_count (from_asterism to_asterism : Z) : Z :=
  let d := (from_asterism - to_asterism) `mod` 27 in
  if bool_decide (d = 0) then 27 else d.

Definition remainder_of_nine (d : Z) : Z :=
  let r := d `mod` 9 in
  if bool_decide (r = 0) then 9 else r.

Definition favorable_remainder (r : Z) : Prop := r ∈ [2; 4; 6; 8; 9].

Definition tara_by_rule (primary secondary : Z) : Q :=
  let rem1 := remainder_of_nine (step_count primary secondary) in
  let rem2 := remainder_of_nine (step_count secondary primary) in
  match bool_decide (favorable_remainder rem1),
        bool_decide (favorable_remainder rem2) with
  | true, true => 3%Q
  | true, false | false, true => (3 # 2)%Q
  | false, false => 0%Q
  end.

(** The eight scores alone, as [compatibility_ashtakoota] computes them
    before it evaluates any dosha predicate. *)
Definition scores_before_doshas (r1 n1 r2 n2 : Z) : result (pydict Q) :=
  varna ← varna_score r1 r2;
  vashya ← vashya_score r1 r2;
  yoni ← yoni_score n1 n2;
  maitri ← maitri_score r1 r2;
  gana ← gana_score n2 n1;
  nadi ← nadi_score n1 n2;
  mret (scores_literal (inject_Z varna) (inject_Z vashya) (tara_score n1 n2)
          (inject_Z yoni) (inject_Z maitri) (inject_Z gana)
          (inject_Z (bhakoot_score r1 r2)) (inject_Z nadi)).

(** The same result with other dosha flags. *)
Definition with_doshas (ak : ashtakoota) (flags : pydict bool) : ashtakoota :=
  {| scores := scores ak;
     total := total ak;
     explanation := explanation ak;
     dosha_cancellation := flags |}.

(** A scorer is order-sensitive when some valid pair scores differently
    once swapped, order-insensitive when none does. *)
Definition order_sensitive {R} (score : Z → Z → R) (valid : Z → Prop) : Prop :=
  ∃ a b, valid a ∧ valid b ∧ score a b ≠ score b a.

Definition order_insensitive {R} (score : Z → Z → R) (valid : Z → Prop) : Prop :=
  ∀ a b, valid a → valid b → score a b = score b a.

(** The partition the specification gives. *)
Definition documented_order_sensitivity : Prop :=
  order_sensitive vashya_score valid_rashi
  ∧ order_sensitive maitri_score valid_rashi
  ∧ order_sensitive gana_score valid_nakshatra
  ∧ order_sensitive bhakoot_score valid_rashi
  ∧ order_insensitive varna_score valid_rashi
  ∧ order_insensitive tara_score valid_nakshatra
  ∧ order_insensitive yoni_score valid_nakshatra
  ∧ order_insensitive nadi_score valid_nakshatra.

(** The three class names of [NAKSHATRA_TO_YONI] that the classification
    sets spell 'Ashva', 'Shvana' and 'Vana'. *)
Definition unclassified_spellings : list string := ["Ashwa"; "Shwan"; "Vanara"].

Definition names_none_of (classes : list string) (p : string * string) : Prop :=
  (p.1 ∉ classes) ∧ (p.2 ∉ classes).

(** All pairs of the friendly, enemy and highly-inimical sets. *)
Definition classification_items : list (string * string) :=
  (FRIENDLY_PAIRS_items ++ ENEMY_PAIRS_items ++ HIGHLY_INIMICAL_PAIRS_items)%list.

(** The check behind the neutral fallthrough: two asterisms of different
    classes, one of them under an unclassified spelling, score 2. *)
Definition neutral_when_unclassified (n1 n2 : Z) : bool :=
  match NAKSHATRA_TO_YONI !! n1, NAKSHATRA_TO_YONI !! n2 with
  | Some y1, Some y2 =>
      if bool_decide (y1 ≠ y2)
         && (bool_decide (y1 ∈ unclassified_spellings)
             || bool_decide (y2 ∈ unclassified_spellings))
      then bool_decide (yoni_score n1 n2 = Ok 2)
      else true
  | _, _ => true
  end.

(** Bhakoot as a function of the circular distance from the first sign to
    the second. *)
Definition bhakoot_by_distance (r1 r2 : Z) : Z :=
  if bool_decide ((r2 - r1) `mod` 12 ∈ [0; 2; 3; 6; 9; 10]) then 7 else 0.

(** The class table has a cell for the classes of every two valid
    asterisms, and it is the cell the loop wrote for that ordered pair. *)
Definition yoni_cell_found (n1 n2 : Z) : bool :=
  match NAKSHATRA_TO_YONI !! n1, NAKSHATRA_TO_YONI !! n2 with
  | Some y1, Some y2 =>
      bool_decide (YONI_COMPATIBILITY !! (y1, y2) = Some (yoni_cell y1 y2))
  | _, _ => false
  end.

(** The seven rulers, and the requirement that a ruler's three lists
    classify each of the other six exactly once. *)
Definition planets : list string :=
  ["Sun"; "Moon"; "Mars"; "Mercury"; "Jupiter"; "Venus"; "Saturn"].

Definition classified_once (lord1 lord2 : string) : bool :=
  match PLANET_RELATIONSHIPS !! lord1 with
  | Some rel =>
      bool_decide
        (length (filter (fun x => x = lord2)
                   (friends rel ++ neutral rel ++ enemies rel)%list) = 1%nat
         ∧ lord1 ∉ (friends rel ++ neutral rel ++ enemies rel)%list)
  | None => false
  end.

(** The sum of the four sign-based scores, and of the four asterism-based
    ones, lies between two bounds. *)
Definition sign_part_between (lo hi : Z) (r1 r2 : Z) : bool :=
  match varna_score r1 r2, vashya_score r1 r2, maitri_score r1 r2 with
  | Ok varna, Ok vashya, Ok maitri =>
      let part := varna + vashya + maitri + bhakoot_score r1 r2 in
      (lo <=? part) && (part <=? hi)
  | _, _, _ => false
  end.

Definition asterism_part_between (lo hi : Q) (n1 n2 : Z) : bool :=
  match yoni_score n1 n2, gana_score n2 n1, nadi_score n1 n2 with
  | Ok yoni, Ok gana, Ok nadi =>
      let part := (tara_score n1 n2 + inject_Z (yoni + gana + nadi))%Q in
      Qle_bool lo part && Qle_bool part hi
  | _, _, _ => false
  end.

(** Concrete collaborators for the two statements above: a geocoder that
    knows two places, one of them at latitude and longitude 0, times out on
    a third and fails with another error on a fourth. *)
Definition example_geocode (name : string) : geocoded :=
  if bool_decide (name = "Chennai") then Location (1308 # 100) (8027 # 100)
  else if bool_decide (name = "Null Island") then Location 0 0
  else if bool_decide (name = "Slowtown") then GeocoderTimedOut
  else if bool_decide (name = "Quota City")
       then OtherException "GeocoderQuotaExceeded"
  else NoLocation.

Definition example_panchanga_of (t : Z) (longitude latitude : Q) : panchanga :=
  {| moon_rashi := 1 + t `mod` 12; nakshatra := 1 + t `mod` 27; pada := 1 |}.

Definition example_person (city : string) (t : Z) : person Z :=
  {| city_of_birth := Some city; time_of_birth := Some t; gender := None |}.

(** * Properties *)

(** ** Domains *)

Lemma valid_rashi_elem r : valid_rashi r → r ∈ rashis.
Proof. unfold valid_rashi, rashis. intros Hr. apply elem_of_seqZ. lia. Qed.

Lemma valid_nakshatra_elem n : valid_nakshatra n → n ∈ nakshatras.
Proof. unfold valid_nakshatra, nakshatras. intros Hn. apply elem_of_seqZ. lia. Qed.

(** A boolean check that holds on every pair of a finite list holds on any
    two of its members; the finite checks below are run by evaluation. *)
Lemma check_pairs (l : list Z) (f : Z → Z → bool) :
  forallb (fun a => forallb (f a) l) l = true →
  ∀ a b, a ∈ l → b ∈ l → f a b = true.
Proof.
  intros Hall a b Ha Hb.
  rewrite forallb_forall in Hall.
  specialize (Hall a (proj1 (list_elem_of_In _ _) Ha)).
  rewrite forallb_forall in Hall.
  exact (Hall b (proj1 (list_elem_of_In _ _) Hb)).
Qed.

Lemma returns_in_spec allowed r :
  returns_in allowed r = true → ∃ v, r = Ok v ∧ v ∈ allowed.
Proof.
  destruct r as [v|e]; simpl; [|discriminate].
  intros Hv. exists v. split; [reflexivity|].
  apply bool_decide_eq_true in Hv. exact Hv.
Qed.

(** Membership in, and case analysis on, a list literal. *)
Ltac in_literal :=
  solve [repeat first [apply list_elem_of_here | apply list_elem_of_further]].

Ltac split_literal H :=
  repeat (apply elem_of_cons in H as [H | H]);
  [.. | apply elem_of_nil in H; destruct H].

Ltac by_rashi_pairs f H1 H2 :=
  apply (check_pairs rashis f);
  [vm_compute; reflexivity
  |apply valid_rashi_elem; exact H1
  |apply valid_rashi_elem; exact H2].

Ltac by_nakshatra_pairs f H1 H2 :=
  apply (check_pairs nakshatras f);
  [vm_compute; reflexivity
  |apply valid_nakshatra_elem; exact H1
  |apply valid_nakshatra_elem; exact H2].

(** ** Ranges of the eight scorers *)

Section ScorerRanges.
Variables r1 r2 n1 n2 : Z.
Hypothesis Hr1 : valid_rashi r1.
Hypothesis Hr2 : valid_rashi r2.
Hypothesis Hn1 : valid_nakshatra n1.
Hypothesis Hn2 : valid_nakshatra n2.

Lemma varna_score_range : ∃ v, varna_score r1 r2 = Ok v ∧ v ∈ [0; 1].
Proof.
  apply returns_in_spec.
  by_rashi_pairs (fun a b => returns_in [0; 1] (varna_score a b)) Hr1 Hr2.
Qed.

Lemma vashya_score_range : ∃ v, vashya_score r1 r2 = Ok v ∧ v ∈ [1; 2].
Proof.
  apply returns_in_spec.
  by_rashi_pairs (fun a b => returns_in [1; 2] (vashya_score a b)) Hr1 Hr2.
Qed.

Lemma maitri_score_range : ∃ v, maitri_score r1 r2 = Ok v ∧ v ∈ [0; 1; 3; 4; 5].
Proof.
  apply returns_in_spec.
  by_rashi_pairs (fun a b => returns_in [0; 1; 3; 4; 5] (maitri_score a b)) Hr1 Hr2.
Qed.

Lemma bhakoot_score_range : bhakoot_score r1 r2 ∈ [0; 7].
Proof.
  apply (bool_decide_eq_true _).
  by_rashi_pairs (fun a b => bool_decide (bhakoot_score a b ∈ [0; 7])) Hr1 Hr2.
Qed.

Lemma yoni_score_range : ∃ v, yoni_score n1 n2 = Ok v ∧ v ∈ [0; 2; 3; 4].
Proof.
  apply returns_in_spec.
  by_nakshatra_pairs (fun a b => returns_in [0; 2; 3; 4] (yoni_score a b)) Hn1 Hn2.
Qed.

(** The argument order of the call in [compatibility_ashtakoota]. *)
Lemma gana_score_range : ∃ v, gana_score n2 n1 = Ok v ∧ v ∈ [0; 1; 5; 6].
Proof.
  apply returns_in_spec.
  by_nakshatra_pairs (fun a b => returns_in [0; 1; 5; 6] (gana_score b a)) Hn1 Hn2.
Qed.

Lemma nadi_score_range : ∃ v, nadi_score n1 n2 = Ok v ∧ v ∈ [0; 8].
Proof.
  apply returns_in_spec.
  by_nakshatra_pairs (fun a b => returns_in [0; 8] (nadi_score a b)) Hn1 Hn2.
Qed.
End ScorerRanges.

(** Tara takes one of three values on all integers. *)
Lemma tara_score_range a b :
  tara_score a b = 0%Q ∨ tara_score a b = (3 # 2)%Q ∨ tara_score a b = 3%Q.
Proof.
  unfold tara_score. cbv zeta.
  destruct (_ && _); [auto|]. destruct (_ || _); auto.
Qed.

(** ** The shape of a successful scoring call *)

Lemma compatibility_ashtakoota_scored r1 n1 p1 r2 n2 p2 :
  valid_rashi r1 → valid_nakshatra n1 →
  valid_rashi r2 → valid_nakshatra n2 →
  ∃ ak, compatibility_ashtakoota r1 n1 p1 r2 n2 p2 = Ok ak
        ∧ scored_as r1 n1 r2 n2 ak.
Proof.
  intros Hr1 Hn1 Hr2 Hn2.
  destruct (varna_score_range r1 r2 Hr1 Hr2) as (varna & Hvarna & _).
  destruct (vashya_score_range r1 r2 Hr1 Hr2) as (vashya & Hvashya & _).
  destruct (yoni_score_range n1 n2 Hn1 Hn2) as (yoni & Hyoni & _).
  destruct (maitri_score_range r1 r2 Hr1 Hr2) as (maitri & Hmaitri & _).
  destruct (gana_score_range n1 n2 Hn1 Hn2) as (gana & Hgana & _).
  destruct (nadi_score_range n1 n2 Hn1 Hn2) as (nadi & Hnadi & _).
  eexists. split.
  - unfold compatibility_ashtakoota.
    rewrite Hvarna, Hvashya, Hyoni, Hmaitri, Hgana, Hnadi. reflexivity.
  - exact (Scored r1 n1 r2 n2 _ _ _ _ _ _ Hvarna Hvashya Hyoni Hmaitri Hgana Hnadi).
Qed.

(** The subdivisions are never read. *)
Lemma compatibility_ashtakoota_pada r1 n1 p1 r2 n2 p2 p1' p2' :
  compatibility_ashtakoota r1 n1 p1 r2 n2 p2
  = compatibility_ashtakoota r1 n1 p1' r2 n2 p2'.
Proof. reflexivity. Qed.

(** ** Sums *)

Lemma fold_left_Qplus_acc (xs : list Q) (a : Q) :
  (fold_left Qplus xs a == a + fold_left Qplus xs 0)%Q.
Proof.
  revert a. induction xs as [|x xs IH]; intros a; simpl.
  - ring.
  - rewrite (IH (a + x)%Q), (IH (0 + x)%Q). ring.
Qed.

Lemma py_sum_cons (x : Q) (xs : list Q) : (py_sum (x :: xs) == x + py_sum xs)%Q.
Proof.
  unfold py_sum. simpl. rewrite fold_left_Qplus_acc. ring.
Qed.

Lemma py_sum_literal a b c d e f g h :
  (py_sum (dict_values (scores_literal a b c d e f g h))
   == a + b + c + d + e + f + g + h)%Q.
Proof. unfold py_sum. simpl. ring. Qed.

Lemma or_0_eq (v : Q) : (or_0 v == v)%Q.
Proof.
  unfold or_0. destruct (Qeq_bool v 0) eqn:Hv; [|reflexivity].
  apply Qeq_bool_eq in Hv. symmetry. exact Hv.
Qed.

Lemma py_sum_or_0 (xs : list Q) : (py_sum (or_0 <$> xs) == py_sum xs)%Q.
Proof.
  induction xs as [|x xs IH]; [reflexivity|].
  rewrite fmap_cons, !py_sum_cons, IH, or_0_eq. reflexivity.
Qed.

(** ** Reading and writing an insertion-ordered dictionary *)

Lemma dict_get_set_eq {V} (d : pydict V) k v :
  dict_get (dict_set d k v) k = Some v.
Proof.
  induction d as [|[k' v'] d IH]; simpl.
  - rewrite bool_decide_eq_true_2 by reflexivity. reflexivity.
  - destruct (bool_decide (k' = k)) eqn:Hk; simpl; rewrite Hk; [reflexivity|exact IH].
Qed.

Lemma dict_get_set_ne {V} (d : pydict V) k k' v :
  k ≠ k' → dict_get (dict_set d k v) k' = dict_get d k'.
Proof.
  intros Hne. induction d as [|[k0 v0] d IH]; simpl.
  - rewrite bool_decide_eq_false_2 by exact Hne. reflexivity.
  - destruct (bool_decide (k0 = k)) eqn:Hk; simpl.
    + apply bool_decide_eq_true in Hk. subst k0.
      rewrite !bool_decide_eq_false_2 by exact Hne. reflexivity.
    + rewrite IH. reflexivity.
Qed.

(** Assignment to a key never changes the set or the order of the keys of
    a dictionary that has the key. *)
Lemma dict_keys_set_present {V} (d : pydict V) k v :
  k ∈ dict_keys d → dict_keys (dict_set d k v) = dict_keys d.
Proof.
  unfold dict_keys. induction d as [|[k0 v0] d IH]; simpl; intros Hk.
  - apply elem_of_nil in Hk. destruct Hk.
  - destruct (bool_decide (k0 = k)) eqn:Hk0; simpl; [reflexivity|].
    apply bool_decide_eq_false in Hk0.
    apply elem_of_cons in Hk as [Hk|Hk]; [congruence|].
    f_equal. exact (IH Hk).
Qed.

Arguments bhakoot_score : simpl never.
Arguments tara_score : simpl never.
Arguments nadi_dosha_cancel : simpl never.
Arguments bhakoot_dosha_cancel : simpl never.

(** ** Role resolution on valid profiles *)

Lemma score_profiles_scored A B :
  valid_profile A → valid_profile B →
  ∃ ak, score_profiles A B = Ok ak ∧ scored_pair A B ak.
Proof.
  intros (HrA & HnA & _) (HrB & HnB & _).
  apply compatibility_ashtakoota_scored; assumption.
Qed.

Lemma resolve_orientation_eq A B gA gB kind rAB rBA :
  score_profiles A B = Ok rAB →
  score_profiles B A = Ok rBA →
  resolve_orientation A B gA gB kind [] =
    if hetero_love kind gA gB then
      if bool_decide (gA = Some "male")
      then (Ok rAB, [(A, B)]) else (Ok rBA, [(B, A)])
    else
      (Ok (if Qle_bool (total rBA) (total rAB) then rAB else rBA),
       [(A, B); (B, A)]).
Proof.
  unfold score_profiles. intros HAB HBA.
  unfold resolve_orientation.
  destruct (hetero_love kind gA gB).
  - destruct (bool_decide (gA = Some "male")); unfold run_ak.
    + rewrite HAB. reflexivity.
    + rewrite HBA. reflexivity.
  - unfold mbind, traced_bind, run_ak. rewrite HAB, HBA. reflexivity.
Qed.

(** What [compute_ashtakoota_raw] returns on two valid profiles: one of the
    two orientations, folded when the report is a friendship report. *)
Lemma compute_ashtakoota_raw_valid A B gA gB kind :
  valid_profile A → valid_profile B → is_kind kind →
  ∃ ak log,
    (scored_pair A B ak ∨ scored_pair B A ak)
    ∧ compute_ashtakoota_raw A B gA gB kind [] =
        (Ok (Some (if bool_decide (kind = Some "friendship")
                   then friendship_fold ak else ak)), log).
Proof.
  intros HA HB Hkind.
  destruct (score_profiles_scored A B HA HB) as (rAB & HAB & HsAB).
  destruct (score_profiles_scored B A HB HA) as (rBA & HBA & HsBA).
  unfold compute_ashtakoota_raw.
  assert (Hguard : negb (bool_decide (kind = Some "love")
                         || bool_decide (kind = Some "friendship")) = false).
  { destruct Hkind as [-> | ->]; reflexivity. }
  rewrite Hguard.
  unfold mbind at 1. unfold traced_bind.
  rewrite (resolve_orientation_eq A B gA gB kind rAB rBA HAB HBA).
  destruct (hetero_love kind gA gB).
  - destruct (bool_decide (gA = Some "male")).
    + exists rAB, [(A, B)]. split; [left; exact HsAB | reflexivity].
    + exists rBA, [(B, A)]. split; [right; exact HsBA | reflexivity].
  - destruct (Qle_bool (total rBA) (total rAB)).
    + exists rAB, [(A, B); (B, A)]. split; [left; exact HsAB | reflexivity].
    + exists rBA, [(A, B); (B, A)]. split; [right; exact HsBA | reflexivity].
Qed.

(** ** Score sets and total bounds *)

Lemma in_set_inject_Z (v : Z) (allowed : list Z) :
  v ∈ allowed → in_set (inject_Z v) (inject_Z <$> allowed).
Proof.
  intros Hv. apply Exists_exists. exists (inject_Z v). split.
  - apply list_elem_of_fmap. exists v. split; [reflexivity | exact Hv].
  - reflexivity.
Qed.

Lemma in_set_weaken (q : Q) (l l' : list Q) : l ⊆ l' → in_set q l → in_set q l'.
Proof.
  intros Hsub Hq. apply Exists_exists in Hq as (x & Hx & Hqx).
  apply Exists_exists. exists x. split; [apply Hsub; exact Hx | exact Hqx].
Qed.

Lemma in_set_here (q : Q) (l : list Q) : q ∈ l → in_set q l.
Proof. intros Hq. apply Exists_exists. exists q. split; [exact Hq | reflexivity]. Qed.

Lemma scored_as_ranges r1 n1 r2 n2 ak :
  valid_rashi r1 → valid_nakshatra n1 →
  valid_rashi r2 → valid_nakshatra n2 →
  scored_as r1 n1 r2 n2 ak →
  ∃ varna vashya yoni maitri gana bhakoot nadi tara,
    scored_ranges varna vashya yoni maitri gana bhakoot nadi tara
    ∧ scores ak =
        scores_literal (inject_Z varna) (inject_Z vashya) tara
          (inject_Z yoni) (inject_Z maitri) (inject_Z gana)
          (inject_Z bhakoot) (inject_Z nadi)
    ∧ total ak = py_sum (dict_values (scores ak))
    ∧ explanation ak = explanation_literal.
Proof.
  intros Hr1 Hn1 Hr2 Hn2 Hak.
  destruct Hak as [varna vashya yoni maitri gana nadi
                   Hvarna Hvashya Hyoni Hmaitri Hgana Hnadi sc].
  exists varna, vashya, yoni, maitri, gana, (bhakoot_score r1 r2), nadi,
         (tara_score n1 n2).
  split; [|split; [reflexivity | split; reflexivity]].
  split.
  - destruct (varna_score_range r1 r2 Hr1 Hr2) as (v & Hv & Hin). congruence.
  - destruct (vashya_score_range r1 r2 Hr1 Hr2) as (v & Hv & Hin). congruence.
  - destruct (tara_score_range n1 n2) as [-> | [-> | ->]]; in_literal.
  - destruct (yoni_score_range n1 n2 Hn1 Hn2) as (v & Hv & Hin). congruence.
  - destruct (maitri_score_range r1 r2 Hr1 Hr2) as (v & Hv & Hin). congruence.
  - destruct (gana_score_range n1 n2 Hn1 Hn2) as (v & Hv & Hin). congruence.
  - apply bhakoot_score_range; assumption.
  - destruct (nadi_score_range n1 n2 Hn1 Hn2) as (v & Hv & Hin). congruence.
Qed.

Lemma Z_between_Q (lo v hi : Z) :
  lo ≤ v ≤ hi → (lo # 1 <= inject_Z v <= hi # 1)%Q.
Proof.
  intros [Hlo Hhi].
  change (lo # 1)%Q with (inject_Z lo). change (hi # 1)%Q with (inject_Z hi).
  split; rewrite <- Zle_Qle; assumption.
Qed.

Section Bounds.
Variables varna vashya yoni maitri gana bhakoot nadi : Z.
Variable tara : Q.
Hypothesis Hranges :
  scored_ranges varna vashya yoni maitri gana bhakoot nadi tara.

Lemma scored_ranges_documented ak :
  scores ak =
    scores_literal (inject_Z varna) (inject_Z vashya) tara
      (inject_Z yoni) (inject_Z maitri) (inject_Z gana)
      (inject_Z bhakoot) (inject_Z nadi) →
  documented_sets ak.
Proof.
  intros Hsc. destruct Hranges.
  unfold documented_sets, has_score. rewrite Hsc.
  repeat split; eexists; (split; [reflexivity|]).
  - exact (in_set_inject_Z _ _ varna_in0).
  - exact (in_set_inject_Z _ _ vashya_in0).
  - exact (in_set_here _ _ tara_in0).
  - apply (in_set_weaken _ (inject_Z <$> [0; 2; 3; 4])).
    + intros x Hx. simpl in Hx. split_literal Hx; subst x; in_literal.
    + exact (in_set_inject_Z _ _ yoni_in0).
  - exact (in_set_inject_Z _ _ maitri_in0).
  - exact (in_set_inject_Z _ _ gana_in0).
  - exact (in_set_inject_Z _ _ bhakoot_in0).
  - exact (in_set_inject_Z _ _ nadi_in0).
Qed.

Lemma tara_between : (0 <= tara <= 3)%Q.
Proof.
  destruct Hranges as [_ _ Htara _ _ _ _ _].
  split_literal Htara; subst tara; split; discriminate.
Qed.

Lemma romantic_total_bound :
  (0 <= py_sum (dict_values
                  (scores_literal (inject_Z varna) (inject_Z vashya) tara
                     (inject_Z yoni) (inject_Z maitri) (inject_Z gana)
                     (inject_Z bhakoot) (inject_Z nadi))) <= 36)%Q.
Proof.
  rewrite py_sum_literal.
  pose proof tara_between as Htara.
  destruct Hranges.
  assert (Hv : 0 ≤ varna ≤ 1) by (split_literal varna_in0; lia).
  assert (Hva : 0 ≤ vashya ≤ 2) by (split_literal vashya_in0; lia).
  assert (Hy : 0 ≤ yoni ≤ 4) by (split_literal yoni_in0; lia).
  assert (Hm : 0 ≤ maitri ≤ 5) by (split_literal maitri_in0; lia).
  assert (Hg : 0 ≤ gana ≤ 6) by (split_literal gana_in0; lia).
  assert (Hb : 0 ≤ bhakoot ≤ 7) by (split_literal bhakoot_in0; lia).
  assert (Hn : 0 ≤ nadi ≤ 8) by (split_literal nadi_in0; lia).
  apply Z_between_Q in Hv, Hva, Hy, Hm, Hg, Hb, Hn.
  lra.
Qed.
End Bounds.

(** ** The friendship fold on a scored dictionary *)

Lemma friendship_fold_total ak :
  total (friendship_fold ak)
  = py_sum (or_0 <$> dict_values (scores (friendship_fold ak))).
Proof. reflexivity. Qed.

Lemma friendship_fold_literal ak a b c d e f g h :
  scores ak = scores_literal a b c d e f g h →
  scores (friendship_fold ak)
  = scores_literal a b c 0 e f (Qmin 7 (or_0 g + or_0 d)) h.
Proof. intros Hsc. unfold friendship_fold. rewrite Hsc. reflexivity. Qed.

Section FoldBounds.
Variables varna vashya yoni maitri gana bhakoot nadi : Z.
Variable tara : Q.
Hypothesis Hranges :
  scored_ranges varna vashya yoni maitri gana bhakoot nadi tara.

Let folded : Q := Qmin 7 (or_0 (inject_Z bhakoot) + or_0 (inject_Z yoni)).

Lemma folded_bhakoot_in : folded ∈ [0; 2; 3; 4; 7]%Q.
Proof.
  destruct Hranges as [_ _ _ Hy _ _ Hb _]. unfold folded.
  split_literal Hb; subst bhakoot; split_literal Hy; subst yoni;
    vm_compute; in_literal.
Qed.

Lemma folded_bhakoot_between : (0 <= folded <= 7)%Q.
Proof.
  pose proof folded_bhakoot_in as Hf.
  split_literal Hf; rewrite Hf; split; discriminate.
Qed.

Variable ak : ashtakoota.
Hypothesis Hscores :
  scores ak =
    scores_literal (inject_Z varna) (inject_Z vashya) tara
      (inject_Z yoni) (inject_Z maitri) (inject_Z gana)
      (inject_Z bhakoot) (inject_Z nadi).

Lemma friendship_fold_sets : friendship_sets (friendship_fold ak).
Proof.
  pose proof folded_bhakoot_in as Hf.
  destruct Hranges.
  unfold friendship_sets, has_score.
  rewrite (friendship_fold_literal ak _ _ _ _ _ _ _ _ Hscores).
  repeat split; eexists; (split; [reflexivity|]).
  - exact (in_set_inject_Z _ _ varna_in0).
  - exact (in_set_inject_Z _ _ vashya_in0).
  - exact (in_set_here _ _ tara_in0).
  - apply in_set_here. in_literal.
  - exact (in_set_inject_Z _ _ maitri_in0).
  - exact (in_set_inject_Z _ _ gana_in0).
  - exact (in_set_here _ _ Hf).
  - exact (in_set_inject_Z _ _ nadi_in0).
Qed.

Lemma friendship_total_bound : (0 <= total (friendship_fold ak) <= 32)%Q.
Proof.
  rewrite friendship_fold_total, py_sum_or_0.
  rewrite (friendship_fold_literal ak _ _ _ _ _ _ _ _ Hscores).
  rewrite py_sum_literal.
  pose proof folded_bhakoot_between as Hf. fold folded.
  pose proof (tara_between _ _ _ _ _ _ _ _ Hranges) as Htara.
  destruct Hranges.
  assert (Hv : 0 ≤ varna ≤ 1) by (split_literal varna_in0; lia).
  assert (Hva : 0 ≤ vashya ≤ 2) by (split_literal vashya_in0; lia).
  assert (Hm : 0 ≤ maitri ≤ 5) by (split_literal maitri_in0; lia).
  assert (Hg : 0 ≤ gana ≤ 6) by (split_literal gana_in0; lia).
  assert (Hn : 0 ≤ nadi ≤ 8) by (split_literal nadi_in0; lia).
  apply Z_between_Q in Hv, Hva, Hm, Hg, Hn.
  lra.
Qed.
End FoldBounds.

(** C1, as stated, fails for a friendship report: the fold moves the Yoni
    score into Bhakoot, so Bhakoot leaves [{0, 7}].  Profiles (sign 1,
    asterism 1) and (sign 2, asterism 4) give Bhakoot [2]. *)
Lemma C1_friendship_bhakoot_outside_documented_set :
  ∃ ak,
    fst (compute_ashtakoota_raw
           {| moon_rashi := 1; nakshatra := 1; pada := 1 |}
           {| moon_rashi := 2; nakshatra := 4; pada := 1 |}
           None None (Some "friendship") []) = Ok (Some ak)
    ∧ dict_get (scores ak) "Bhakoot" = Some 2%Q
    ∧ ¬ has_score ak "Bhakoot" [0; 7]%Q
    ∧ ¬ documented_sets ak.
Proof.
  eexists. split; [vm_compute; reflexivity|].
  assert (Hno : ¬ has_score
                    {| scores := scores_literal 1 2 (3 # 2) 0 3 5 2 0;
                       total := 29 # 2;
                       explanation := [];
                       dosha_cancellation := [] |} "Bhakoot" [0; 7]%Q).
  { intros (q & Hq & Hin). vm_compute in Hq. injection Hq as <-.
    apply Exists_cons in Hin as [Hin | Hin]; [discriminate Hin|].
    apply Exists_cons in Hin as [Hin | Hin]; [discriminate Hin|].
    apply Exists_nil in Hin. exact Hin. }
  split; [reflexivity|]. split.
  - exact Hno.
  - intros (_ & _ & _ & _ & _ & _ & Hb & _). exact (Hno Hb).
Qed.

(** C1 (amended).  A scoring call on valid inputs yields the documented
    sets and a total in [0, 36]; so does a Romantic report.  A Friendship
    report yields the same sets for Varna, Vashya, Tara, Maitri, Gana and
    Nadi, Yoni [0], Bhakoot in [{0, 2, 3, 4, 7}], and a total in [0, 32]. *)
Theorem C1_score_sets_and_total_bounds A B gA gB kind :
  valid_profile A → valid_profile B → is_kind kind →
  (∃ ak, score_profiles A B = Ok ak
         ∧ documented_sets ak ∧ (0 <= total ak <= 36)%Q)
  ∧ ∃ ak log,
      compute_ashtakoota_raw A B gA gB kind [] = (Ok (Some ak), log)
      ∧ (kind = Some "love" →
         documented_sets ak ∧ (0 <= total ak <= 36)%Q)
      ∧ (kind = Some "friendship" →
         friendship_sets ak ∧ (0 <= total ak <= 32)%Q).
Proof.
  intros HA HB Hkind.
  assert (Hromantic : ∀ X Y ak, valid_profile X → valid_profile Y →
            scored_pair X Y ak →
            (documented_sets ak ∧ (0 <= total ak <= 36)%Q)
            ∧ (friendship_sets (friendship_fold ak)
               ∧ (0 <= total (friendship_fold ak) <= 32)%Q)).
  { intros X Y ak (HrX & HnX & _) (HrY & HnY & _) Hak.
    destruct (scored_as_ranges _ _ _ _ ak HrX HnX HrY HnY Hak)
      as (varna & vashya & yoni & maitri & gana & bhakoot & nadi & tara
          & Hranges & Hsc & Htot & _).
    split; split.
    - exact (scored_ranges_documented _ _ _ _ _ _ _ _ Hranges ak Hsc).
    - rewrite Htot, Hsc. apply (romantic_total_bound _ _ _ _ _ _ _ _ Hranges).
    - exact (friendship_fold_sets _ _ _ _ _ _ _ _ Hranges ak Hsc).
    - apply (friendship_total_bound _ _ _ _ _ _ _ _ Hranges ak Hsc). }
  split.
  - destruct (score_profiles_scored A B HA HB) as (ak & Hak & Hs).
    exists ak. split; [exact Hak|]. apply (Hromantic A B ak HA HB Hs).
  - destruct (compute_ashtakoota_raw_valid A B gA gB kind HA HB Hkind)
      as (ak & log & Hs & Hrun).
    assert (Hboth : (documented_sets ak ∧ (0 <= total ak <= 36)%Q)
                    ∧ (friendship_sets (friendship_fold ak)
                       ∧ (0 <= total (friendship_fold ak) <= 32)%Q)).
    { destruct Hs as [Hs | Hs]; eauto. }
    eexists _, log. split; [exact Hrun|]. split.
    + intros ->. rewrite bool_decide_eq_false_2 by discriminate.
      exact (proj1 Hboth).
    + intros ->. rewrite bool_decide_eq_true_2 by reflexivity.
      exact (proj2 Hboth).
Qed.

Lemma C1_score_sets_and_total_bounds_witness :
  let A := {| moon_rashi := 1; nakshatra := 1; pada := 1 |} in
  let B := {| moon_rashi := 2; nakshatra := 4; pada := 1 |} in
  valid_profile A ∧ valid_profile B ∧ is_kind (Some "friendship")
  ∧ ((∃ ak, score_profiles A B = Ok ak
            ∧ documented_sets ak ∧ (0 <= total ak <= 36)%Q)
     ∧ ∃ ak log,
         compute_ashtakoota_raw A B None None (Some "friendship") []
         = (Ok (Some ak), log)
         ∧ (Some "friendship" = Some "love" →
            documented_sets ak ∧ (0 <= total ak <= 36)%Q)
         ∧ (Some "friendship" = Some "friendship" →
            friendship_sets ak ∧ (0 <= total ak <= 32)%Q)).
Proof.
  intros A B.
  assert (HA : valid_profile A) by (unfold valid_profile; simpl; repeat split; lia).
  assert (HB : valid_profile B) by (unfold valid_profile; simpl; repeat split; lia).
  assert (Hk : is_kind (Some "friendship")) by (right; reflexivity).
  split; [exact HA|]. split; [exact HB|]. split; [exact Hk|].
  exact (C1_score_sets_and_total_bounds A B None None (Some "friendship") HA HB Hk).
Defined.

(** ** Role resolution *)

Lemma hetero_love_iff kind gA gB :
  hetero_love kind gA gB = true ↔ romantic_opposite kind gA gB.
Proof.
  unfold hetero_love, is_male_or_female, romantic_opposite.
  rewrite !andb_true_iff, !orb_true_iff, !bool_decide_eq_true.
  split.
  - intros (((Hk & [HA | HA]) & [HB | HB]) & Hne); subst; tauto.
  - intros (Hk & [[HA HB] | [HA HB]]); subst; repeat split; auto; discriminate.
Qed.

(** C2.  With the two scoring results [rAB] (user first) and [rBA] (other
    first): a Romantic report on a male and a female profile scores the male
    as primary and calls the scorer once; every other report calls it for
    (A, B) and then (B, A), keeps (B, A) when its total is strictly higher
    and (A, B) otherwise. *)
Theorem C2_role_resolution A B gA gB kind :
  valid_profile A → valid_profile B → is_kind kind →
  ∃ rAB rBA,
    score_profiles A B = Ok rAB
    ∧ score_profiles B A = Ok rBA
    ∧ (kind = Some "love" → gA = Some "male" → gB = Some "female" →
       compute_ashtakoota_raw A B gA gB kind [] = (Ok (Some rAB), [(A, B)]))
    ∧ (kind = Some "love" → gA = Some "female" → gB = Some "male" →
       compute_ashtakoota_raw A B gA gB kind [] = (Ok (Some rBA), [(B, A)]))
    ∧ (¬ romantic_opposite kind gA gB →
       ∃ kept,
         compute_ashtakoota_raw A B gA gB kind [] =
           (Ok (Some (if bool_decide (kind = Some "friendship")
                      then friendship_fold kept else kept)),
            [(A, B); (B, A)])
         ∧ ((total rAB < total rBA)%Q → kept = rBA)
         ∧ ((total rBA <= total rAB)%Q → kept = rAB)).
Proof.
  intros HA HB Hkind.
  destruct (score_profiles_scored A B HA HB) as (rAB & HAB & _).
  destruct (score_profiles_scored B A HB HA) as (rBA & HBA & _).
  exists rAB, rBA. split; [exact HAB|]. split; [exact HBA|].
  assert (Hrun : compute_ashtakoota_raw A B gA gB kind [] =
            let '(r, log) := resolve_orientation A B gA gB kind [] in
            match r with
            | Ok ak => (Ok (Some (if bool_decide (kind = Some "friendship")
                                  then friendship_fold ak else ak)), log)
            | Raise e => (Raise e, log)
            end).
  { unfold compute_ashtakoota_raw.
    destruct Hkind as [-> | ->]; reflexivity. }
  rewrite Hrun, (resolve_orientation_eq A B gA gB kind rAB rBA HAB HBA).
  split; [|split].
  - intros -> -> ->. reflexivity.
  - intros -> -> ->. reflexivity.
  - intros Hnot.
    destruct (hetero_love kind gA gB) eqn:Hh.
    { apply hetero_love_iff in Hh. contradiction. }
    exists (if Qle_bool (total rBA) (total rAB) then rAB else rBA).
    split; [reflexivity|]. split.
    + intros Hlt. destruct (Qle_bool (total rBA) (total rAB)) eqn:Hle;
        [|reflexivity].
      apply Qle_bool_iff in Hle. exfalso. exact (Qlt_not_le _ _ Hlt Hle).
    + intros Hle. apply Qle_bool_iff in Hle. rewrite Hle. reflexivity.
Qed.

Lemma C2_role_resolution_witness :
  let A := {| moon_rashi := 4; nakshatra := 8; pada := 2 |} in
  let B := {| moon_rashi := 3; nakshatra := 6; pada := 1 |} in
  valid_profile A ∧ valid_profile B ∧ is_kind (Some "love")
  ∧ ∃ rAB rBA,
      score_profiles A B = Ok rAB
      ∧ score_profiles B A = Ok rBA
      ∧ (Some "love" = Some "love" → Some "male" = Some "male" →
         Some "female" = Some "female" →
         compute_ashtakoota_raw A B (Some "male") (Some "female") (Some "love") []
         = (Ok (Some rAB), [(A, B)]))
      ∧ (Some "love" = Some "love" → Some "male" = Some "female" →
         Some "female" = Some "male" →
         compute_ashtakoota_raw A B (Some "male") (Some "female") (Some "love") []
         = (Ok (Some rBA), [(B, A)]))
      ∧ (¬ romantic_opposite (Some "love") (Some "male") (Some "female") →
         ∃ kept,
           compute_ashtakoota_raw A B (Some "male") (Some "female") (Some "love") [] =
             (Ok (Some (if bool_decide (Some "love" = Some "friendship")
                        then friendship_fold kept else kept)),
              [(A, B); (B, A)])
           ∧ ((total rAB < total rBA)%Q → kept = rBA)
           ∧ ((total rBA <= total rAB)%Q → kept = rAB)).
Proof.
  intros A B.
  assert (HA : valid_profile A) by (unfold valid_profile; simpl; repeat split; lia).
  assert (HB : valid_profile B) by (unfold valid_profile; simpl; repeat split; lia).
  assert (Hk : is_kind (Some "love")) by (left; reflexivity).
  split; [exact HA|]. split; [exact HB|]. split; [exact Hk|].
  exact (C2_role_resolution A B (Some "male") (Some "female") (Some "love") HA HB Hk).
Defined.

(** Two profiles on which the orientations disagree: scored with the user
    first the total is 19.5, with the other first it is 22.5, and a report that
    has no gender-defined roles keeps the second. *)
Example swapped_orientation_kept :
  let A := {| moon_rashi := 3; nakshatra := 6; pada := 1 |} in
  let B := {| moon_rashi := 4; nakshatra := 8; pada := 2 |} in
  total <$> score_profiles A B = Ok (39 # 2)%Q
  ∧ total <$> score_profiles B A = Ok (45 # 2)%Q
  ∧ fst (compute_ashtakoota_raw A B (Some "female") (Some "female")
           (Some "love") [])
    = Some <$> score_profiles B A.
Proof. vm_compute. repeat split; reflexivity. Qed.

(** ** The friendship transform *)

Lemma dict_get_keys {V} (d : pydict V) k v :
  dict_get d k = Some v → k ∈ dict_keys d.
Proof.
  unfold dict_keys. induction d as [|[k0 v0] d IH]; simpl; [discriminate|].
  destruct (bool_decide (k0 = k)) eqn:Hk.
  - apply bool_decide_eq_true in Hk. subst k0. intros _. apply list_elem_of_here.
  - intros Hd. apply list_elem_of_further. exact (IH Hd).
Qed.

(** C3, as stated, fails on where the ceiling is carried.  For signs 1
    and 2 with asterisms 1 and 4 the result of the service has the four
    entries [scores], [total], [explanation] and [dosha_cancellation], for a
    Friendship report as for a Romantic one, and no number in it, nested
    ones included, is 32 (resp. 36): the total is 14.5 in both.  The
    ceiling is what [_calculate_max_score] computes for the endpoints'
    response, 32 and 36. *)
Lemma C3_ceiling_is_not_in_the_result :
  let A := {| moon_rashi := 1; nakshatra := 1; pada := 1 |} in
  let B := {| moon_rashi := 2; nakshatra := 4; pada := 1 |} in
  ∃ friendly romantic,
    fst (compute_ashtakoota_raw A B None None (Some "friendship") [])
    = Ok (Some friendly)
    ∧ fst (compute_ashtakoota_raw A B None None (Some "love") [])
      = Ok (Some romantic)
    ∧ dict_keys (as_dict friendly) = result_keys
    ∧ dict_keys (as_dict romantic) = result_keys
    ∧ dict_get (as_dict friendly) "total" = Some (VNum (29 # 2))
    ∧ dict_get (as_dict romantic) "total" = Some (VNum (29 # 2))
    ∧ (∀ q, q ∈ numbers_in (as_dict friendly) → ¬ (q == 32)%Q)
    ∧ (∀ q, q ∈ numbers_in (as_dict romantic) → ¬ (q == 36)%Q)
    ∧ _calculate_max_score (Some "friendship") = 32
    ∧ _calculate_max_score (Some "love") = 36.
Proof.
  intros A B. eexists _, _.
  split; [vm_compute; reflexivity|].
  split; [vm_compute; reflexivity|].
  split; [reflexivity|]. split; [reflexivity|].
  split; [reflexivity|]. split; [reflexivity|].
  assert (Hnone : ∀ (ceiling q : Q) (numbers : list Q),
            forallb (λ n, negb (Qeq_bool n ceiling)) numbers = true →
            q ∈ numbers → ¬ (q == ceiling)%Q).
  { intros ceiling q numbers Hall Hin Heq.
    rewrite forallb_forall in Hall.
    apply list_elem_of_In, Hall, negb_true_iff in Hin.
    apply Qeq_bool_iff in Heq. congruence. }
  split; [|split; [|split; reflexivity]].
  - intros q. apply Hnone. vm_compute. reflexivity.
  - intros q. apply Hnone. vm_compute. reflexivity.
Qed.

(** C3 (amended).  The fold applied to a scoring result with Bhakoot [b]
    and Yoni [y]: Bhakoot becomes [min(7, b + y)], Yoni becomes 0, the Yoni
    note is replaced, the eight score slots are kept in place and the total
    is the sum of the new scores; the two documented instances follow.  The
    ceiling is not made part of the result: folded or not, the result has
    the entries [scores], [total], [explanation] and [dosha_cancellation]
    and no [max_total].  It is [_calculate_max_score] that yields 32 for a
    Friendship report and 36 for a Romantic one, for the [max_score] of the
    endpoints' response.  On valid profiles a Friendship report is the fold
    of a scoring result and a Romantic report is an unfolded scoring result;
    either has those four entries, and its total is at most that ceiling. *)
Theorem C3_friendship_transform ak b y :
  dict_get (scores ak) "Bhakoot" = Some b →
  dict_get (scores ak) "Yoni" = Some y →
  (∃ b', dict_get (scores (friendship_fold ak)) "Bhakoot" = Some b'
         ∧ (b' == Qmin 7 (b + y))%Q)
  ∧ dict_get (scores (friendship_fold ak)) "Yoni" = Some 0%Q
  ∧ dict_get (explanation (friendship_fold ak)) "Yoni" = Some yoni_friendship_note
  ∧ dict_keys (scores (friendship_fold ak)) = dict_keys (scores ak)
  ∧ (total (friendship_fold ak)
     == py_sum (dict_values (scores (friendship_fold ak))))%Q
  ∧ (dict_keys (as_dict (friendship_fold ak)) = result_keys
     ∧ dict_get (as_dict (friendship_fold ak)) "max_total" = None
     ∧ dict_keys (as_dict ak) = result_keys
     ∧ dict_get (as_dict ak) "max_total" = None)
  ∧ (_calculate_max_score (Some "friendship") = 32
     ∧ _calculate_max_score (Some "love") = 36)
  ∧ (b = 5%Q → y = 3%Q →
     dict_get (scores (friendship_fold ak)) "Bhakoot" = Some 7%Q)
  ∧ (b = 2%Q → y = 1%Q →
     dict_get (scores (friendship_fold ak)) "Bhakoot" = Some 3%Q)
  ∧ ∀ A B gA gB kind,
      valid_profile A → valid_profile B → is_kind kind →
      ∃ scored log reported,
        (scored_pair A B scored ∨ scored_pair B A scored)
        ∧ compute_ashtakoota_raw A B gA gB kind [] = (Ok (Some reported), log)
        ∧ dict_keys (as_dict reported) = result_keys
        ∧ dict_get (as_dict reported) "max_total" = None
        ∧ (total reported <= inject_Z (_calculate_max_score kind))%Q
        ∧ (kind = Some "friendship" →
           reported = friendship_fold scored ∧ (total reported <= 32)%Q)
        ∧ (kind = Some "love" →
           reported = scored ∧ (total reported <= 36)%Q).
Proof.
  intros Hb Hy.
  assert (Hbhakoot :
    dict_get (scores (friendship_fold ak)) "Bhakoot"
    = Some (Qmin 7 (or_0 b + or_0 y))).
  { unfold friendship_fold. cbn [scores]. rewrite Hb, Hy. cbn [default].
    rewrite dict_get_set_ne by discriminate. apply dict_get_set_eq. }
  split; [|split; [|split; [|split; [|split; [|split; [|split;
    [|split; [|split]]]]]]]].
  - eexists. split; [exact Hbhakoot|]. rewrite !or_0_eq. reflexivity.
  - unfold friendship_fold. cbn [scores]. apply dict_get_set_eq.
  - unfold friendship_fold. cbn [explanation].
    rewrite !dict_get_set_ne by discriminate. apply dict_get_set_eq.
  - unfold friendship_fold. cbn [scores].
    rewrite dict_keys_set_present.
    + apply dict_keys_set_present. exact (dict_get_keys _ _ _ Hb).
    + rewrite dict_keys_set_present by exact (dict_get_keys _ _ _ Hb).
      exact (dict_get_keys _ _ _ Hy).
  - rewrite friendship_fold_total. apply py_sum_or_0.
  - repeat split; reflexivity.
  - split; reflexivity.
  - intros -> ->. exact Hbhakoot.
  - intros -> ->. exact Hbhakoot.
  - intros A B gA gB kind HA HB Hkind.
    destruct (compute_ashtakoota_raw_valid A B gA gB kind HA HB Hkind)
      as (scored & log & Hs & Hrun).
    assert (Hbounds : (total scored <= 36)%Q
                      ∧ (total (friendship_fold scored) <= 32)%Q).
    { assert (Hone : ∀ X Y, valid_profile X → valid_profile Y →
                scored_pair X Y scored →
                (total scored <= 36)%Q
                ∧ (total (friendship_fold scored) <= 32)%Q).
      { intros X Y (HrX & HnX & _) (HrY & HnY & _) Hsc.
        destruct (scored_as_ranges _ _ _ _ scored HrX HnX HrY HnY Hsc)
          as (varna & vashya & yoni & maitri & gana & bhakoot & nadi & tara
              & Hranges & Hlit & Htot & _).
        split.
        - rewrite Htot, Hlit.
          apply (romantic_total_bound _ _ _ _ _ _ _ _ Hranges).
        - apply (friendship_total_bound _ _ _ _ _ _ _ _ Hranges scored Hlit). }
      destruct Hs as [Hs | Hs]; eauto. }
    exists scored, log. eexists. split; [exact Hs|]. split; [exact Hrun|].
    split; [reflexivity|]. split; [reflexivity|].
    destruct Hkind as [-> | ->].
    + rewrite bool_decide_eq_false_2 by discriminate.
      split; [exact (proj1 Hbounds)|].
      split; [discriminate|]. intros _. split; [reflexivity | exact (proj1 Hbounds)].
    + rewrite bool_decide_eq_true_2 by reflexivity.
      split; [exact (proj2 Hbounds)|].
      split; [|discriminate]. intros _. split; [reflexivity | exact (proj2 Hbounds)].
Qed.

Lemma C3_friendship_transform_witness :
  let ak := {| scores := scores_literal 1 2 3 3 5 6 5 8;
               total := 33;
               explanation := explanation_literal;
               dosha_cancellation := [("Nadi", false); ("Bhakoot", false)] |} in
  dict_get (scores ak) "Bhakoot" = Some 5%Q
  ∧ dict_get (scores ak) "Yoni" = Some 3%Q
  ∧ dict_get (scores (friendship_fold ak)) "Yoni" = Some 0%Q
  ∧ (5%Q = 5%Q → 3%Q = 3%Q →
     dict_get (scores (friendship_fold ak)) "Bhakoot" = Some 7%Q)
  ∧ dict_keys (as_dict (friendship_fold ak)) = result_keys.
Proof.
  intros ak.
  assert (Hb : dict_get (scores ak) "Bhakoot" = Some 5%Q) by reflexivity.
  assert (Hy : dict_get (scores ak) "Yoni" = Some 3%Q) by reflexivity.
  split; [exact Hb|]. split; [exact Hy|].
  destruct (C3_friendship_transform ak 5%Q 3%Q Hb Hy)
    as (_ & Hyoni & _ & _ & _ & (Hkeys & _) & _ & Hfirst & _).
  split; [exact Hyoni|]. split; [exact Hfirst | exact Hkeys].
Defined.

(** ** Out-of-range inputs *)

Lemma RASHI_TO_VARNA_outside r : ¬ valid_rashi r → RASHI_TO_VARNA !! r = None.
Proof.
  unfold valid_rashi. intros Hr.
  apply not_elem_of_list_to_map_1. simpl. intros Hin.
  split_literal Hin; lia.
Qed.

Lemma RASHI_TO_VARNA_inside r : valid_rashi r → is_Some (RASHI_TO_VARNA !! r).
Proof.
  intros Hr. apply valid_rashi_elem in Hr.
  unfold rashis in Hr. vm_compute seqZ in Hr.
  split_literal Hr; subst r; eexists; reflexivity.
Qed.

Lemma NAKSHATRA_TO_YONI_outside n :
  ¬ valid_nakshatra n → NAKSHATRA_TO_YONI !! n = None.
Proof.
  unfold valid_nakshatra. intros Hn.
  apply not_elem_of_list_to_map_1. simpl. intros Hin.
  split_literal Hin; lia.
Qed.

Lemma NAKSHATRA_TO_YONI_inside n :
  valid_nakshatra n → is_Some (NAKSHATRA_TO_YONI !! n).
Proof.
  intros Hn. apply valid_nakshatra_elem in Hn.
  unfold nakshatras in Hn. vm_compute seqZ in Hn.
  split_literal Hn; subst n; eexists; reflexivity.
Qed.

Lemma varna_score_outside r1 r2 :
  (¬ valid_rashi r1 → varna_score r1 r2 = Raise (KeyError (KInt r1)))
  ∧ (valid_rashi r1 → ¬ valid_rashi r2 →
     varna_score r1 r2 = Raise (KeyError (KInt r2))).
Proof.
  unfold varna_score, subscript. split.
  - intros Hr1. rewrite (RASHI_TO_VARNA_outside r1 Hr1). reflexivity.
  - intros Hr1 Hr2. destruct (RASHI_TO_VARNA_inside r1 Hr1) as [v1 Hv1].
    rewrite Hv1, (RASHI_TO_VARNA_outside r2 Hr2). reflexivity.
Qed.

Lemma yoni_score_outside n1 n2 :
  (¬ valid_nakshatra n1 → yoni_score n1 n2 = Raise (KeyError (KInt n1)))
  ∧ (valid_nakshatra n1 → ¬ valid_nakshatra n2 →
     yoni_score n1 n2 = Raise (KeyError (KInt n2))).
Proof.
  unfold yoni_score, subscript. split.
  - intros Hn1. rewrite (NAKSHATRA_TO_YONI_outside n1 Hn1). reflexivity.
  - intros Hn1 Hn2. destruct (NAKSHATRA_TO_YONI_inside n1 Hn1) as [y1 Hy1].
    rewrite Hy1, (NAKSHATRA_TO_YONI_outside n2 Hn2). reflexivity.
Qed.

(** C4, as stated, fails: a subdivision outside 1-4 (here 9, and 0 for the
    second profile) is accepted and a score is returned. *)
Lemma C4_out_of_range_subdivision_is_scored :
  ¬ valid_pada 9 ∧ ¬ valid_pada 0
  ∧ ∃ ak, compatibility_ashtakoota 1 1 9 1 1 0 = Ok ak ∧ total ak = 28%Q.
Proof.
  unfold valid_pada. split; [lia|]. split; [lia|].
  eexists. split; vm_compute; reflexivity.
Qed.

(** C4 (amended).  A sign outside 1-12 or an asterism outside 1-27 makes the
    call raise [KeyError] carrying the offending value, from the first table
    subscription that meets it (in [varna_score] for a sign, in [yoni_score]
    for an asterism, the boy's value before the girl's); no score is
    returned.  The subdivisions are not checked and do not influence the
    result. *)
Theorem C4_out_of_range_inputs r1 n1 p1 r2 n2 p2 :
  (¬ valid_rashi r1 →
   varna_score r1 r2 = Raise (KeyError (KInt r1))
   ∧ compatibility_ashtakoota r1 n1 p1 r2 n2 p2 = Raise (KeyError (KInt r1)))
  ∧ (valid_rashi r1 → ¬ valid_rashi r2 →
     varna_score r1 r2 = Raise (KeyError (KInt r2))
     ∧ compatibility_ashtakoota r1 n1 p1 r2 n2 p2 = Raise (KeyError (KInt r2)))
  ∧ (valid_rashi r1 → valid_rashi r2 → ¬ valid_nakshatra n1 →
     yoni_score n1 n2 = Raise (KeyError (KInt n1))
     ∧ compatibility_ashtakoota r1 n1 p1 r2 n2 p2 = Raise (KeyError (KInt n1)))
  ∧ (valid_rashi r1 → valid_rashi r2 →
     valid_nakshatra n1 → ¬ valid_nakshatra n2 →
     yoni_score n1 n2 = Raise (KeyError (KInt n2))
     ∧ compatibility_ashtakoota r1 n1 p1 r2 n2 p2 = Raise (KeyError (KInt n2)))
  ∧ ∀ p1' p2',
      compatibility_ashtakoota r1 n1 p1' r2 n2 p2'
      = compatibility_ashtakoota r1 n1 p1 r2 n2 p2.
Proof.
  destruct (varna_score_outside r1 r2) as [Hv1 Hv2].
  destruct (yoni_score_outside n1 n2) as [Hy1 Hy2].
  assert (Hsigns : valid_rashi r1 → valid_rashi r2 → ∀ e,
            yoni_score n1 n2 = Raise e →
            compatibility_ashtakoota r1 n1 p1 r2 n2 p2 = Raise e).
  { intros Hr1 Hr2 e He.
    destruct (varna_score_range r1 r2 Hr1 Hr2) as (varna & Hvarna & _).
    destruct (vashya_score_range r1 r2 Hr1 Hr2) as (vashya & Hvashya & _).
    unfold compatibility_ashtakoota. rewrite Hvarna, Hvashya, He. reflexivity. }
  split; [|split; [|split; [|split]]].
  - intros Hr1. split; [exact (Hv1 Hr1)|].
    unfold compatibility_ashtakoota. rewrite (Hv1 Hr1). reflexivity.
  - intros Hr1 Hr2. split; [exact (Hv2 Hr1 Hr2)|].
    unfold compatibility_ashtakoota. rewrite (Hv2 Hr1 Hr2). reflexivity.
  - intros Hr1 Hr2 Hn1. split; [exact (Hy1 Hn1)|].
    exact (Hsigns Hr1 Hr2 _ (Hy1 Hn1)).
  - intros Hr1 Hr2 Hn1 Hn2. split; [exact (Hy2 Hn1 Hn2)|].
    exact (Hsigns Hr1 Hr2 _ (Hy2 Hn1 Hn2)).
  - intros p1' p2'. reflexivity.
Qed.

Lemma C4_out_of_range_inputs_witness :
  ¬ valid_rashi 13
  ∧ compatibility_ashtakoota 13 1 1 1 1 1 = Raise (KeyError (KInt 13))
  ∧ valid_rashi 1 ∧ valid_rashi 2 ∧ ¬ valid_nakshatra 28
  ∧ compatibility_ashtakoota 1 28 1 2 1 1 = Raise (KeyError (KInt 28)).
Proof.
  assert (H13 : ¬ valid_rashi 13) by (unfold valid_rashi; lia).
  assert (H1 : valid_rashi 1) by (unfold valid_rashi; lia).
  assert (H2 : valid_rashi 2) by (unfold valid_rashi; lia).
  assert (H28 : ¬ valid_nakshatra 28) by (unfold valid_nakshatra; lia).
  split; [exact H13|].
  split; [exact (proj2 (proj1 (C4_out_of_range_inputs 13 1 1 1 1 1) H13))|].
  split; [exact H1|]. split; [exact H2|]. split; [exact H28|].
  destruct (C4_out_of_range_inputs 1 28 1 2 1 1) as (_ & _ & Hn & _).
  exact (proj2 (Hn H1 H2 H28)).
Defined.

(** ** Identical profiles *)

Lemma check_each (l : list Z) (f : Z → bool) :
  forallb f l = true → ∀ a, a ∈ l → f a = true.
Proof.
  intros Hall a Ha. rewrite forallb_forall in Hall.
  exact (Hall a (proj1 (list_elem_of_In _ _) Ha)).
Qed.

Lemma same_rashi_scores r :
  valid_rashi r →
  varna_score r r = Ok 1 ∧ vashya_score r r = Ok 2
  ∧ maitri_score r r = Ok 5 ∧ bhakoot_score r r = 7.
Proof.
  intros Hr. apply valid_rashi_elem in Hr.
  assert (Hall : forallb
    (fun a => bool_decide (varna_score a a = Ok 1)
              && bool_decide (vashya_score a a = Ok 2)
              && bool_decide (maitri_score a a = Ok 5)
              && bool_decide (bhakoot_score a a = 7)) rashis = true)
    by (vm_compute; reflexivity).
  pose proof (check_each _ _ Hall r Hr) as Hsame. cbv beta in Hsame.
  rewrite !andb_true_iff, !bool_decide_eq_true in Hsame. tauto.
Qed.

Lemma same_nakshatra_scores n :
  valid_nakshatra n →
  yoni_score n n = Ok 4 ∧ gana_score n n = Ok 6 ∧ nadi_score n n = Ok 0.
Proof.
  intros Hn. apply valid_nakshatra_elem in Hn.
  assert (Hall : forallb
    (fun a => bool_decide (yoni_score a a = Ok 4)
              && bool_decide (gana_score a a = Ok 6)
              && bool_decide (nadi_score a a = Ok 0)) nakshatras = true)
    by (vm_compute; reflexivity).
  pose proof (check_each _ _ Hall n Hn) as Hsame. cbv beta in Hsame.
  rewrite !andb_true_iff, !bool_decide_eq_true in Hsame. tauto.
Qed.

(** An asterism against itself: the step count is 27 both ways, the
    remainder 9, which is favourable. *)
Lemma tara_score_same n : tara_score n n = 3%Q.
Proof. unfold tara_score. rewrite Z.sub_diag. reflexivity. Qed.

Lemma nadi_dosha_cancel_iff r1 n1 r2 n2 :
  nadi_dosha_cancel r1 n1 r2 n2 = true ↔ r1 = r2 ∨ n1 = n2.
Proof.
  unfold nadi_dosha_cancel.
  rewrite !orb_true_iff, !andb_true_iff, !bool_decide_eq_true. lia.
Qed.

Lemma bhakoot_dosha_cancel_iff r1 r2 :
  bhakoot_dosha_cancel r1 r2 = true ↔ r1 = r2.
Proof. unfold bhakoot_dosha_cancel. apply bool_decide_eq_true. Qed.

(** C5.  Two identical valid profiles score Varna 1, Vashya 2, Tara 3,
    Yoni 4, Maitri 5, Gana 6, Bhakoot 7, Nadi 0, total 28, with both dosha
    flags true; a Romantic report on them returns exactly this, whatever the
    genders and hence whichever orientation is taken. *)
Theorem C5_identical_profiles r n p gA gB :
  valid_rashi r → valid_nakshatra n → valid_pada p →
  let X := {| moon_rashi := r; nakshatra := n; pada := p |} in
  compatibility_ashtakoota r n p r n p = Ok identical_profiles_result
  ∧ ∃ log,
      compute_ashtakoota_raw X X gA gB (Some "love") []
      = (Ok (Some identical_profiles_result), log).
Proof.
  intros Hr Hn Hp X.
  destruct (same_rashi_scores r Hr) as (Hvarna & Hvashya & Hmaitri & Hbhakoot).
  destruct (same_nakshatra_scores n Hn) as (Hyoni & Hgana & Hnadi).
  assert (Hcall : compatibility_ashtakoota r n p r n p
                  = Ok identical_profiles_result).
  { unfold compatibility_ashtakoota.
    rewrite Hvarna, Hvashya, Hyoni, Hmaitri, Hgana, Hnadi, Hbhakoot,
      tara_score_same.
    rewrite (proj2 (nadi_dosha_cancel_iff r n r n) (or_introl eq_refl)).
    rewrite (proj2 (bhakoot_dosha_cancel_iff r r) eq_refl).
    reflexivity. }
  split; [exact Hcall|].
  unfold compute_ashtakoota_raw. cbn [negb bool_decide orb].
  change (negb _) with false. cbv iota.
  unfold mbind at 1. unfold traced_bind.
  rewrite (resolve_orientation_eq X X gA gB (Some "love")
             identical_profiles_result identical_profiles_result Hcall Hcall).
  destruct (hetero_love (Some "love") gA gB).
  - destruct (bool_decide (gA = Some "male")); eexists; reflexivity.
  - eexists. reflexivity.
Qed.

Lemma C5_identical_profiles_witness :
  valid_rashi 7 ∧ valid_nakshatra 15 ∧ valid_pada 3
  ∧ compatibility_ashtakoota 7 15 3 7 15 3 = Ok identical_profiles_result.
Proof.
  assert (Hr : valid_rashi 7) by (unfold valid_rashi; lia).
  assert (Hn : valid_nakshatra 15) by (unfold valid_nakshatra; lia).
  assert (Hp : valid_pada 3) by (unfold valid_pada; lia).
  split; [exact Hr|]. split; [exact Hn|]. split; [exact Hp|].
  exact (proj1 (C5_identical_profiles 7 15 3 None None Hr Hn Hp)).
Defined.

(** ** Tara, by the rule *)

Lemma favorable_elem r : r ∈ favorable ↔ favorable_remainder r.
Proof.
  unfold favorable, favorable_remainder.
  rewrite !elem_of_union, !elem_of_singleton, !elem_of_cons, elem_of_nil.
  tauto.
Qed.

Lemma tara_score_swap a b : tara_score a b = tara_score b a.
Proof.
  unfold tara_score. cbv zeta.
  match goal with
  | |- context [bool_decide (?x ∈ favorable) && bool_decide (?y ∈ favorable)] =>
      destruct (bool_decide (x ∈ favorable)), (bool_decide (y ∈ favorable))
  end; reflexivity.
Qed.

(** C6.  On all integers, and so on every pair of asterisms in 1-27,
    [tara_score] computes the rule (3 when both remainders are favourable,
    1.5 when exactly one is, 0 when neither is), and swapping the two
    asterisms leaves it unchanged. *)
Theorem C6_tara_rule_and_symmetry primary secondary :
  tara_score primary secondary = tara_by_rule primary secondary
  ∧ tara_score primary secondary = tara_score secondary primary.
Proof.
  split; [|apply tara_score_swap].
  unfold tara_score, tara_by_rule. cbv zeta.
  fold (step_count primary secondary). fold (step_count secondary primary).
  fold (remainder_of_nine (step_count primary secondary)).
  fold (remainder_of_nine (step_count secondary primary)).
  rewrite (bool_decide_ext _ _ (favorable_elem _)).
  rewrite (bool_decide_ext _ _
             (favorable_elem (remainder_of_nine (step_count secondary primary)))).
  destruct (bool_decide _); destruct (bool_decide _); reflexivity.
Qed.

(** ** Dosha flags *)

(** C7.  On valid profiles the Nadi flag is true exactly when the signs or
    the asterisms coincide (false exactly when both differ), the Bhakoot flag
    exactly when the signs coincide; the scores are those computed before
    the flags, the total is their sum, and downstream neither the fold nor
    the choice of orientation reads the flags. *)
Theorem C7_dosha_flags r1 n1 p1 r2 n2 p2 :
  valid_rashi r1 → valid_nakshatra n1 →
  valid_rashi r2 → valid_nakshatra n2 →
  ∃ ak nadi_cancelled bhakoot_cancelled,
    compatibility_ashtakoota r1 n1 p1 r2 n2 p2 = Ok ak
    ∧ dosha_cancellation ak =
        [("Nadi", nadi_cancelled); ("Bhakoot", bhakoot_cancelled)]
    ∧ (nadi_cancelled = true ↔ r1 = r2 ∨ n1 = n2)
    ∧ (nadi_cancelled = false ↔ r1 ≠ r2 ∧ n1 ≠ n2)
    ∧ (bhakoot_cancelled = true ↔ r1 = r2)
    ∧ scores_before_doshas r1 n1 r2 n2 = Ok (scores ak)
    ∧ total ak = py_sum (dict_values (scores ak))
    ∧ ∀ flags,
        scores (friendship_fold (with_doshas ak flags))
        = scores (friendship_fold ak)
        ∧ total (friendship_fold (with_doshas ak flags))
          = total (friendship_fold ak)
        ∧ dosha_cancellation (friendship_fold (with_doshas ak flags)) = flags
        ∧ ∀ other,
            Qle_bool (total other) (total (with_doshas ak flags))
            = Qle_bool (total other) (total ak).
Proof.
  intros Hr1 Hn1 Hr2 Hn2.
  destruct (compatibility_ashtakoota_scored r1 n1 p1 r2 n2 p2 Hr1 Hn1 Hr2 Hn2)
    as (ak & Hak & Hs).
  destruct Hs as [varna vashya yoni maitri gana nadi
                  Hvarna Hvashya Hyoni Hmaitri Hgana Hnadi sc].
  eexists _, (nadi_dosha_cancel r1 n1 r2 n2), (bhakoot_dosha_cancel r1 r2).
  split; [exact Hak|]. split; [reflexivity|].
  split; [apply nadi_dosha_cancel_iff|].
  split.
  { rewrite <- not_true_iff_false, nadi_dosha_cancel_iff. lia. }
  split; [apply bhakoot_dosha_cancel_iff|].
  split.
  { unfold scores_before_doshas.
    rewrite Hvarna, Hvashya, Hyoni, Hmaitri, Hgana, Hnadi. reflexivity. }
  split; [reflexivity|].
  intros flags. repeat split.
Qed.

Lemma C7_dosha_flags_witness :
  valid_rashi 2 ∧ valid_nakshatra 4 ∧ valid_rashi 2 ∧ valid_nakshatra 5
  ∧ ∃ ak nadi_cancelled bhakoot_cancelled,
      compatibility_ashtakoota 2 4 1 2 5 1 = Ok ak
      ∧ dosha_cancellation ak =
          [("Nadi", nadi_cancelled); ("Bhakoot", bhakoot_cancelled)]
      ∧ (nadi_cancelled = true ↔ 2 = 2 ∨ 4 = 5)
      ∧ (bhakoot_cancelled = true ↔ 2 = 2).
Proof.
  assert (Hr : valid_rashi 2) by (unfold valid_rashi; lia).
  assert (Hn4 : valid_nakshatra 4) by (unfold valid_nakshatra; lia).
  assert (Hn5 : valid_nakshatra 5) by (unfold valid_nakshatra; lia).
  split; [exact Hr|]. split; [exact Hn4|]. split; [exact Hr|]. split; [exact Hn5|].
  destruct (C7_dosha_flags 2 4 1 2 5 1 Hr Hn4 Hr Hn5)
    as (ak & nc & bc & Hak & Hd & Hnc & _ & Hbc & _).
  exists ak, nc, bc. repeat split; try assumption; tauto.
Defined.

(** ** Order sensitivity *)

Lemma vashya_score_swap : order_insensitive vashya_score valid_rashi.
Proof.
  intros a b Ha Hb. apply (bool_decide_eq_true _).
  by_rashi_pairs (fun a b => bool_decide (vashya_score a b = vashya_score b a)) Ha Hb.
Qed.

Lemma bhakoot_score_swap : order_insensitive bhakoot_score valid_rashi.
Proof.
  intros a b Ha Hb. apply (bool_decide_eq_true _).
  by_rashi_pairs (fun a b => bool_decide (bhakoot_score a b = bhakoot_score b a)) Ha Hb.
Qed.

Lemma yoni_score_swap : order_insensitive yoni_score valid_nakshatra.
Proof.
  intros a b Ha Hb. apply (bool_decide_eq_true _).
  by_nakshatra_pairs (fun a b => bool_decide (yoni_score a b = yoni_score b a)) Ha Hb.
Qed.

Lemma nadi_score_swap : order_insensitive nadi_score valid_nakshatra.
Proof.
  intros a b Ha Hb. apply (bool_decide_eq_true _).
  by_nakshatra_pairs (fun a b => bool_decide (nadi_score a b = nadi_score b a)) Ha Hb.
Qed.

Lemma varna_score_order : order_sensitive varna_score valid_rashi.
Proof.
  exists 4, 3. unfold valid_rashi. split; [lia|]. split; [lia|].
  vm_compute. discriminate.
Qed.

Lemma maitri_score_order : order_sensitive maitri_score valid_rashi.
Proof.
  exists 4, 3. unfold valid_rashi. split; [lia|]. split; [lia|].
  vm_compute. discriminate.
Qed.

Lemma gana_score_order : order_sensitive gana_score valid_nakshatra.
Proof.
  exists 1, 3. unfold valid_nakshatra. split; [lia|]. split; [lia|].
  vm_compute. discriminate.
Qed.

(** C8, as stated, fails in three places: Varna changes under a swap
    (signs 4 and 3: a Brahmin primary over a Shudra secondary scores 1, the
    reverse 0), while Vashya and Bhakoot never do. *)
Lemma C8_documented_partition_fails :
  varna_score 4 3 = Ok 1 ∧ varna_score 3 4 = Ok 0
  ∧ ¬ order_insensitive varna_score valid_rashi
  ∧ ¬ order_sensitive vashya_score valid_rashi
  ∧ ¬ order_sensitive bhakoot_score valid_rashi
  ∧ ¬ documented_order_sensitivity.
Proof.
  assert (Hvarna : ¬ order_insensitive varna_score valid_rashi).
  { intros Hins. destruct varna_score_order as (a & b & Ha & Hb & Hne).
    exact (Hne (Hins a b Ha Hb)). }
  split; [reflexivity|]. split; [reflexivity|]. split; [exact Hvarna|].
  split; [|split].
  - intros (a & b & Ha & Hb & Hne). exact (Hne (vashya_score_swap a b Ha Hb)).
  - intros (a & b & Ha & Hb & Hne). exact (Hne (bhakoot_score_swap a b Ha Hb)).
  - intros (_ & _ & _ & _ & Hins & _). exact (Hvarna Hins).
Qed.

(** C8 (amended).  Three scorers are order-sensitive: Varna, Maitri and
    Gana each have a valid pair whose score changes under a swap.  The other
    five, Vashya, Tara, Yoni, Bhakoot and Nadi, give the same score on
    every valid pair and its swap. *)
Theorem C8_order_sensitivity :
  order_sensitive varna_score valid_rashi
  ∧ order_sensitive maitri_score valid_rashi
  ∧ order_sensitive gana_score valid_nakshatra
  ∧ order_insensitive vashya_score valid_rashi
  ∧ order_insensitive tara_score valid_nakshatra
  ∧ order_insensitive yoni_score valid_nakshatra
  ∧ order_insensitive bhakoot_score valid_rashi
  ∧ order_insensitive nadi_score valid_nakshatra.
Proof.
  split; [exact varna_score_order|].
  split; [exact maitri_score_order|].
  split; [exact gana_score_order|].
  split; [exact vashya_score_swap|].
  split; [intros a b _ _; apply tara_score_swap|].
  split; [exact yoni_score_swap|].
  split; [exact bhakoot_score_swap | exact nadi_score_swap].
Qed.

(** ** Gana *)

Lemma gana_score_lookup girl_nakshatra boy_nakshatra g_girl g_boy :
  NAKSHATRA_TO_GANA !! girl_nakshatra = Some g_girl →
  NAKSHATRA_TO_GANA !! boy_nakshatra = Some g_boy →
  gana_score girl_nakshatra boy_nakshatra
  = Ok (get_or scoring_table (g_girl, g_boy) 0).
Proof.
  intros Hgirl Hboy. unfold gana_score, subscript.
  rewrite Hgirl, Hboy. reflexivity.
Qed.

(** C9, as stated, fails: with a Deva primary (asterism 1) and a Rakshasa
    secondary (asterism 3) the Gana score is 1, not 0, and the swapped pair
    scores 0, not 1.  The table is read with the secondary's class first. *)
Lemma C9_deva_primary_rakshasa_secondary_scores_one :
  NAKSHATRA_TO_GANA !! 1 = Some "Deva"
  ∧ NAKSHATRA_TO_GANA !! 3 = Some "Rakshasa"
  ∧ ∃ ak swapped,
      compatibility_ashtakoota 1 1 1 1 3 1 = Ok ak
      ∧ compatibility_ashtakoota 1 3 1 1 1 1 = Ok swapped
      ∧ dict_get (scores ak) "Gana" = Some 1%Q
      ∧ dict_get (scores ak) "Gana" ≠ Some 0%Q
      ∧ dict_get (scores swapped) "Gana" = Some 0%Q.
Proof.
  split; [reflexivity|]. split; [reflexivity|].
  eexists _, _.
  split; [vm_compute; reflexivity|]. split; [vm_compute; reflexivity|].
  split; [reflexivity|]. split; [discriminate | reflexivity].
Qed.

(** C9 (amended).  The Gana score of a call is the entry of the fixed 3x3
    table at the ordered pair (secondary's class, primary's class).  The
    table is not symmetric: a Deva primary with a Rakshasa secondary scores
    1, a Rakshasa primary with a Deva secondary scores 0, so the two
    orientations score differently. *)
Theorem C9_gana_table_orientation r1 n1 p1 r2 n2 p2 g_primary g_secondary :
  valid_rashi r1 → valid_nakshatra n1 →
  valid_rashi r2 → valid_nakshatra n2 →
  NAKSHATRA_TO_GANA !! n1 = Some g_primary →
  NAKSHATRA_TO_GANA !! n2 = Some g_secondary →
  ∃ ak swapped,
    compatibility_ashtakoota r1 n1 p1 r2 n2 p2 = Ok ak
    ∧ compatibility_ashtakoota r2 n2 p2 r1 n1 p1 = Ok swapped
    ∧ dict_get (scores ak) "Gana"
      = Some (inject_Z (get_or scoring_table (g_secondary, g_primary) 0))
    ∧ dict_get (scores swapped) "Gana"
      = Some (inject_Z (get_or scoring_table (g_primary, g_secondary) 0))
    ∧ (g_primary = "Deva" → g_secondary = "Rakshasa" →
       dict_get (scores ak) "Gana" = Some 1%Q
       ∧ dict_get (scores swapped) "Gana" = Some 0%Q
       ∧ dict_get (scores ak) "Gana" ≠ dict_get (scores swapped) "Gana").
Proof.
  intros Hr1 Hn1 Hr2 Hn2 Hg1 Hg2.
  destruct (compatibility_ashtakoota_scored r1 n1 p1 r2 n2 p2 Hr1 Hn1 Hr2 Hn2)
    as (ak & Hak & Hs).
  destruct (compatibility_ashtakoota_scored r2 n2 p2 r1 n1 p1 Hr2 Hn2 Hr1 Hn1)
    as (swapped & Hswapped & Hs').
  exists ak, swapped. split; [exact Hak|]. split; [exact Hswapped|].
  assert (Hgana : dict_get (scores ak) "Gana"
            = Some (inject_Z (get_or scoring_table (g_secondary, g_primary) 0))).
  { destruct Hs as [? ? ? ? gana ? _ _ _ _ Hgana _ sc]. cbn [scores]. subst sc.
    rewrite (gana_score_lookup n2 n1 _ _ Hg2 Hg1) in Hgana.
    injection Hgana as <-. reflexivity. }
  assert (Hgana' : dict_get (scores swapped) "Gana"
            = Some (inject_Z (get_or scoring_table (g_primary, g_secondary) 0))).
  { destruct Hs' as [? ? ? ? gana ? _ _ _ _ Hgana' _ sc]. cbn [scores]. subst sc.
    rewrite (gana_score_lookup n1 n2 _ _ Hg1 Hg2) in Hgana'.
    injection Hgana' as <-. reflexivity. }
  split; [exact Hgana|]. split; [exact Hgana'|].
  intros -> ->. rewrite Hgana, Hgana'.
  split; [reflexivity|]. split; [reflexivity | discriminate].
Qed.

Lemma C9_gana_table_orientation_witness :
  valid_rashi 1 ∧ valid_nakshatra 1 ∧ valid_rashi 5 ∧ valid_nakshatra 3
  ∧ NAKSHATRA_TO_GANA !! 1 = Some "Deva"
  ∧ NAKSHATRA_TO_GANA !! 3 = Some "Rakshasa"
  ∧ ∃ ak swapped,
      compatibility_ashtakoota 1 1 2 5 3 4 = Ok ak
      ∧ compatibility_ashtakoota 5 3 4 1 1 2 = Ok swapped
      ∧ dict_get (scores ak) "Gana" = Some 1%Q
      ∧ dict_get (scores swapped) "Gana" = Some 0%Q.
Proof.
  assert (Hr1 : valid_rashi 1) by (unfold valid_rashi; lia).
  assert (Hr5 : valid_rashi 5) by (unfold valid_rashi; lia).
  assert (Hn1 : valid_nakshatra 1) by (unfold valid_nakshatra; lia).
  assert (Hn3 : valid_nakshatra 3) by (unfold valid_nakshatra; lia).
  assert (Hg1 : NAKSHATRA_TO_GANA !! 1 = Some "Deva") by reflexivity.
  assert (Hg3 : NAKSHATRA_TO_GANA !! 3 = Some "Rakshasa") by reflexivity.
  split; [exact Hr1|]. split; [exact Hn1|]. split; [exact Hr5|].
  split; [exact Hn3|]. split; [exact Hg1|]. split; [exact Hg3|].
  destruct (C9_gana_table_orientation 1 1 2 5 3 4 "Deva" "Rakshasa"
              Hr1 Hn1 Hr5 Hn3 Hg1 Hg3)
    as (ak & swapped & Hak & Hswapped & _ & _ & Hdr).
  destruct (Hdr eq_refl eq_refl) as (Hone & Hzero & _).
  exists ak, swapped. repeat split; assumption.
Defined.

(** ** Yoni: classes that no classification rule names *)

Lemma classification_sets_spelling :
  Forall (names_none_of unclassified_spellings) classification_items.
Proof.
  unfold names_none_of. apply (bool_decide_unpack _). vm_compute. exact I.
Qed.

Lemma classification_sets_items p :
  p ∈ FRIENDLY_PAIRS ∨ p ∈ ENEMY_PAIRS ∨ p ∈ HIGHLY_INIMICAL_PAIRS →
  p ∈ classification_items.
Proof.
  unfold classification_items, FRIENDLY_PAIRS, ENEMY_PAIRS, HIGHLY_INIMICAL_PAIRS.
  rewrite !elem_of_list_to_set, !elem_of_app. tauto.
Qed.

(** C10.  No pair of the friendly, enemy or highly-inimical sets names
    'Ashwa', 'Shwan' or 'Vanara'; and for two valid asterisms of different
    classes, at least one of them among these three, the Yoni score is the
    neutral 2 (so not 0, 1 or 3). *)
Theorem C10_yoni_neutral_fallthrough :
  (∀ p, p ∈ FRIENDLY_PAIRS ∨ p ∈ ENEMY_PAIRS ∨ p ∈ HIGHLY_INIMICAL_PAIRS →
        (p.1 ∉ unclassified_spellings) ∧ (p.2 ∉ unclassified_spellings))
  ∧ ∀ n1 n2 y1 y2,
      valid_nakshatra n1 → valid_nakshatra n2 →
      NAKSHATRA_TO_YONI !! n1 = Some y1 →
      NAKSHATRA_TO_YONI !! n2 = Some y2 →
      y1 ≠ y2 →
      y1 ∈ unclassified_spellings ∨ y2 ∈ unclassified_spellings →
      yoni_score n1 n2 = Ok 2
      ∧ yoni_score n1 n2 ≠ Ok 0 ∧ yoni_score n1 n2 ≠ Ok 1
      ∧ yoni_score n1 n2 ≠ Ok 3.
Proof.
  split.
  - intros p Hp. apply classification_sets_items in Hp.
    pose proof classification_sets_spelling as Hall.
    rewrite Forall_forall in Hall. exact (Hall p Hp).
  - intros n1 n2 y1 y2 Hn1 Hn2 Hy1 Hy2 Hne Hun.
    assert (Hcheck : neutral_when_unclassified n1 n2 = true).
    { by_nakshatra_pairs neutral_when_unclassified Hn1 Hn2. }
    unfold neutral_when_unclassified in Hcheck. rewrite Hy1, Hy2 in Hcheck.
    rewrite (bool_decide_eq_true_2 _ Hne) in Hcheck.
    assert (Hor : bool_decide (y1 ∈ unclassified_spellings)
                  || bool_decide (y2 ∈ unclassified_spellings) = true).
    { apply orb_true_iff. rewrite !bool_decide_eq_true. exact Hun. }
    rewrite Hor in Hcheck. cbn [andb] in Hcheck.
    apply bool_decide_eq_true in Hcheck. rewrite Hcheck.
    repeat split; discriminate.
Qed.

Lemma C10_yoni_neutral_fallthrough_witness :
  valid_nakshatra 1 ∧ valid_nakshatra 4
  ∧ NAKSHATRA_TO_YONI !! 1 = Some "Ashwa"
  ∧ NAKSHATRA_TO_YONI !! 4 = Some "Sarpa"
  ∧ "Ashwa" ≠ "Sarpa"
  ∧ "Ashwa" ∈ unclassified_spellings
  ∧ yoni_score 1 4 = Ok 2.
Proof.
  assert (Hn1 : valid_nakshatra 1) by (unfold valid_nakshatra; lia).
  assert (Hn4 : valid_nakshatra 4) by (unfold valid_nakshatra; lia).
  assert (Hy1 : NAKSHATRA_TO_YONI !! 1 = Some "Ashwa") by reflexivity.
  assert (Hy4 : NAKSHATRA_TO_YONI !! 4 = Some "Sarpa") by reflexivity.
  assert (Hne : "Ashwa" ≠ "Sarpa") by discriminate.
  assert (Hin : "Ashwa" ∈ unclassified_spellings) by apply list_elem_of_here.
  split; [exact Hn1|]. split; [exact Hn4|]. split; [exact Hy1|].
  split; [exact Hy4|]. split; [exact Hne|]. split; [exact Hin|].
  exact (proj1 (proj2 C10_yoni_neutral_fallthrough 1 4 "Ashwa" "Sarpa"
                  Hn1 Hn4 Hy1 Hy4 Hne (or_introl Hin))).
Defined.

(** * Further properties of the scorers *)

(** ** Tara in closed form *)

(** The inner computation of [tara_score] on the two step counts. *)
Lemma tara_score_cases (a b : Z) :
  ∃ d1, 0 ≤ d1 < 27 ∧ (a - b) `mod` 27 = d1
        ∧ (b - a) `mod` 27 = (if bool_decide (d1 = 0) then 0 else 27 - d1)
        ∧ (a - b) `mod` 9 = d1 `mod` 9.
Proof.
  exists ((a - b) `mod` 27).
  destruct (bool_decide ((a - b) `mod` 27 = 0)) eqn:Hd.
  - apply bool_decide_eq_true in Hd.
    repeat split; try reflexivity; Z.to_euclidean_division_equations; lia.
  - apply bool_decide_eq_false in Hd.
    repeat split; try reflexivity; Z.to_euclidean_division_equations; lia.
Qed.

(** X1.  On all integers the Tara score is 3 when the two asterisms are
    congruent modulo 9 and 1.5 otherwise: exactly one of the two remainders
    is favourable unless both are 9, so the score 0 of the last branch is
    never returned. *)
Theorem X1_tara_closed_form (boy_nakshatra girl_nakshatra : Z) :
  tara_score boy_nakshatra girl_nakshatra
  = (if bool_decide ((boy_nakshatra - girl_nakshatra) `mod` 9 = 0)
     then 3%Q else (3 # 2)%Q)
  ∧ tara_score boy_nakshatra girl_nakshatra ≠ 0%Q.
Proof.
  assert (Hform : tara_score boy_nakshatra girl_nakshatra
            = (if bool_decide ((boy_nakshatra - girl_nakshatra) `mod` 9 = 0)
               then 3%Q else (3 # 2)%Q)).
  { destruct (tara_score_cases boy_nakshatra girl_nakshatra)
      as (d1 & Hd1 & Hfwd & Hbwd & Hnine).
    unfold tara_score. cbv zeta. rewrite Hfwd, Hbwd, Hnine. clear Hfwd Hbwd Hnine.
    assert (Hin : d1 ∈ seqZ 0 27) by (apply elem_of_seqZ; lia).
    vm_compute seqZ in Hin.
    split_literal Hin; subst d1; vm_compute; reflexivity. }
  split; [exact Hform|].
  rewrite Hform. destruct (bool_decide _); discriminate.
Qed.

(** ** Bhakoot by circular distance *)

Lemma BHAKOOT_MATRIX_outside r1 r2 :
  ¬ (valid_rashi r1 ∧ valid_rashi r2) → BHAKOOT_MATRIX !! (r1, r2) = None.
Proof.
  unfold valid_rashi. intros Hout.
  apply not_elem_of_list_to_map_1. intros Hin.
  vm_compute in Hin.
  split_literal Hin; injection Hin as -> ->; lia.
Qed.

(** X2.  The 12x12 matrix is a function of the circular distance between
    the two signs: a valid pair scores 7 exactly when [(r2 - r1) mod 12] is
    0, 2, 3, 6, 9 or 10, and 0 otherwise.  A pair with a sign outside 1-12
    is not a key, and the scorer answers with its default 0 instead of
    raising. *)
Theorem X2_bhakoot_distance_and_default r1 r2 :
  (valid_rashi r1 → valid_rashi r2 →
   BHAKOOT_MATRIX !! (r1, r2) = Some (bhakoot_by_distance r1 r2)
   ∧ bhakoot_score r1 r2 = bhakoot_by_distance r1 r2)
  ∧ (¬ (valid_rashi r1 ∧ valid_rashi r2) → bhakoot_score r1 r2 = 0).
Proof.
  split.
  - intros Hr1 Hr2.
    assert (Hkey : BHAKOOT_MATRIX !! (r1, r2) = Some (bhakoot_by_distance r1 r2)).
    { apply (bool_decide_eq_true _).
      by_rashi_pairs
        (fun a b => bool_decide (BHAKOOT_MATRIX !! (a, b)
                                 = Some (bhakoot_by_distance a b))) Hr1 Hr2. }
    split; [exact Hkey|].
    unfold bhakoot_score, get_or. rewrite Hkey. reflexivity.
  - intros Hout. unfold bhakoot_score, get_or.
    rewrite (BHAKOOT_MATRIX_outside r1 r2 Hout). reflexivity.
Qed.

Lemma X2_bhakoot_distance_and_default_witness :
  valid_rashi 5 ∧ valid_rashi 11 ∧ bhakoot_score 5 11 = 7
  ∧ ¬ (valid_rashi 0 ∧ valid_rashi 11) ∧ bhakoot_score 0 11 = 0.
Proof.
  assert (H5 : valid_rashi 5) by (unfold valid_rashi; lia).
  assert (H11 : valid_rashi 11) by (unfold valid_rashi; lia).
  assert (H0 : ¬ (valid_rashi 0 ∧ valid_rashi 11)) by (unfold valid_rashi; lia).
  split; [exact H5|]. split; [exact H11|].
  split; [exact (proj2 (proj1 (X2_bhakoot_distance_and_default 5 11) H5 H11))|].
  split; [exact H0|].
  exact (proj2 (X2_bhakoot_distance_and_default 0 11) H0).
Defined.

(** ** Nadi in closed form *)

(** X3.  The Nadi classes repeat with period 3 along the asterisms, so two
    valid asterisms score 0 exactly when their difference is a multiple of
    3 and 8 otherwise; and a pair with Tara 3 always has Nadi 0, so the two
    maxima never occur together. *)
Theorem X3_nadi_closed_form n1 n2 :
  valid_nakshatra n1 → valid_nakshatra n2 →
  nadi_score n1 n2
  = Ok (if bool_decide ((n1 - n2) `mod` 3 = 0) then 0 else 8)
  ∧ (tara_score n1 n2 = 3%Q → nadi_score n1 n2 = Ok 0).
Proof.
  intros Hn1 Hn2.
  assert (Hform : nadi_score n1 n2
            = Ok (if bool_decide ((n1 - n2) `mod` 3 = 0) then 0 else 8)).
  { apply (bool_decide_eq_true _).
    by_nakshatra_pairs
      (fun a b => bool_decide
         (nadi_score a b
          = Ok (if bool_decide ((a - b) `mod` 3 = 0) then 0 else 8))) Hn1 Hn2. }
  split; [exact Hform|].
  assert (Hexcl : (if Qeq_bool (tara_score n1 n2) 3
                   then bool_decide (nadi_score n1 n2 = Ok 0) else true) = true).
  { by_nakshatra_pairs
      (fun a b => if Qeq_bool (tara_score a b) 3
                  then bool_decide (nadi_score a b = Ok 0) else true) Hn1 Hn2. }
  intros Htara. rewrite Htara in Hexcl.
  apply bool_decide_eq_true in Hexcl. exact Hexcl.
Qed.

Lemma X3_nadi_closed_form_witness :
  valid_nakshatra 2 ∧ valid_nakshatra 11
  ∧ nadi_score 2 11 = Ok 0 ∧ tara_score 2 11 = 3%Q.
Proof.
  assert (H2 : valid_nakshatra 2) by (unfold valid_nakshatra; lia).
  assert (H11 : valid_nakshatra 11) by (unfold valid_nakshatra; lia).
  split; [exact H2|]. split; [exact H11|].
  split; [|reflexivity].
  exact (proj2 (X3_nadi_closed_form 2 11 H2 H11) eq_refl).
Defined.

(** ** Rules that are never applied *)

Lemma ENEMY_PAIRS_shadowed p : p ∈ ENEMY_PAIRS → p ∈ HIGHLY_INIMICAL_PAIRS.
Proof.
  unfold ENEMY_PAIRS, HIGHLY_INIMICAL_PAIRS. rewrite !elem_of_list_to_set.
  revert p. apply Forall_forall. apply (bool_decide_unpack _).
  vm_compute. exact I.
Qed.

Lemma HIGHLY_INIMICAL_PAIRS_swap y1 y2 :
  (y1, y2) ∈ HIGHLY_INIMICAL_PAIRS → (y2, y1) ∈ HIGHLY_INIMICAL_PAIRS.
Proof.
  unfold HIGHLY_INIMICAL_PAIRS. rewrite !elem_of_list_to_set.
  intros Hin.
  assert (Hall : Forall (fun p : string * string =>
                           (p.2, p.1) ∈ HIGHLY_INIMICAL_PAIRS_items)
                        HIGHLY_INIMICAL_PAIRS_items).
  { apply (bool_decide_unpack _). vm_compute. exact I. }
  rewrite Forall_forall in Hall. exact (Hall (y1, y2) Hin).
Qed.

(** X4.  Every enemy pair is also a highly-inimical pair, and the
    highly-inimical set is closed under swapping, so the cell rule never
    yields 1, for any two class names.  For valid asterisms the first lookup
    of [yoni_score] always succeeds with that cell: the reversed lookup and
    the final default are never reached, and the score is never 1. *)
Theorem X4_yoni_enemy_rule_never_applies :
  (∀ y1 y2 : string, yoni_cell y1 y2 ≠ 1)
  ∧ ∀ n1 n2, valid_nakshatra n1 → valid_nakshatra n2 →
      ∃ y1 y2,
        NAKSHATRA_TO_YONI !! n1 = Some y1
        ∧ NAKSHATRA_TO_YONI !! n2 = Some y2
        ∧ YONI_COMPATIBILITY !! (y1, y2) = Some (yoni_cell y1 y2)
        ∧ yoni_score n1 n2 = Ok (yoni_cell y1 y2)
        ∧ yoni_score n1 n2 ≠ Ok 1.
Proof.
  assert (Hcell : ∀ y1 y2 : string, yoni_cell y1 y2 ≠ 1).
  { intros y1 y2. unfold yoni_cell. cbv zeta.
    destruct (bool_decide (y1 = y2)); [discriminate|].
    destruct (bool_decide ((y1, y2) ∈ HIGHLY_INIMICAL_PAIRS)) eqn:Hh;
      [discriminate|].
    destruct (bool_decide ((y1, y2) ∈ FRIENDLY_PAIRS)
              || bool_decide ((y2, y1) ∈ FRIENDLY_PAIRS)); [discriminate|].
    destruct (bool_decide ((y1, y2) ∈ ENEMY_PAIRS)
              || bool_decide ((y2, y1) ∈ ENEMY_PAIRS)) eqn:He; [|discriminate].
    exfalso. apply bool_decide_eq_false in Hh. apply Hh.
    apply orb_true_iff in He. rewrite !bool_decide_eq_true in He.
    destruct He as [He | He].
    - exact (ENEMY_PAIRS_shadowed _ He).
    - apply HIGHLY_INIMICAL_PAIRS_swap. exact (ENEMY_PAIRS_shadowed _ He). }
  split; [exact Hcell|].
  intros n1 n2 Hn1 Hn2.
  assert (Hfound : yoni_cell_found n1 n2 = true).
  { by_nakshatra_pairs yoni_cell_found Hn1 Hn2. }
  unfold yoni_cell_found in Hfound.
  destruct (NAKSHATRA_TO_YONI !! n1) as [y1|] eqn:Hy1; [|discriminate].
  destruct (NAKSHATRA_TO_YONI !! n2) as [y2|] eqn:Hy2; [|discriminate].
  apply bool_decide_eq_true in Hfound.
  assert (Hscore : yoni_score n1 n2 = Ok (yoni_cell y1 y2)).
  { unfold yoni_score, subscript. rewrite Hy1, Hy2. cbn [mbind result_bind].
    rewrite Hfound. reflexivity. }
  exists y1, y2. repeat split; try assumption.
  rewrite Hscore. intros Hone. injection Hone as Hone. exact (Hcell _ _ Hone).
Qed.

Lemma X4_yoni_enemy_rule_never_applies_witness :
  valid_nakshatra 7 ∧ valid_nakshatra 10
  ∧ ∃ y1 y2,
      NAKSHATRA_TO_YONI !! 7 = Some y1
      ∧ NAKSHATRA_TO_YONI !! 10 = Some y2
      ∧ YONI_COMPATIBILITY !! (y1, y2) = Some (yoni_cell y1 y2)
      ∧ yoni_score 7 10 = Ok (yoni_cell y1 y2)
      ∧ yoni_score 7 10 ≠ Ok 1.
Proof.
  assert (H7 : valid_nakshatra 7) by (unfold valid_nakshatra; lia).
  assert (H10 : valid_nakshatra 10) by (unfold valid_nakshatra; lia).
  split; [exact H7|]. split; [exact H10|].
  exact (proj2 X4_yoni_enemy_rule_never_applies 7 10 H7 H10).
Defined.

(** X5.  Each ruler lists every other ruler in exactly one of its friends,
    neutral and enemies lists and never itself; hence for valid signs the
    closing [return 0] of the Maitri scorer is never reached: the score is
    1, 3, 4 or 5, and it is 5 exactly when the two signs have the same
    ruler. *)
Theorem X5_maitri_never_zero :
  (∀ lord1 lord2, lord1 ∈ planets → lord2 ∈ planets → lord1 ≠ lord2 →
     classified_once lord1 lord2 = true)
  ∧ ∀ r1 r2, valid_rashi r1 → valid_rashi r2 →
      ∃ v, maitri_score r1 r2 = Ok v ∧ v ∈ [1; 3; 4; 5]
           ∧ (v = 5 ↔ RASHI_LORDS !! r1 = RASHI_LORDS !! r2).
Proof.
  split.
  - intros lord1 lord2 H1 H2 Hne. unfold planets in H1, H2.
    split_literal H1; subst lord1; split_literal H2; subst lord2;
      first [congruence | vm_compute; reflexivity].
  - intros r1 r2 Hr1 Hr2.
    assert (Hcheck :
      match maitri_score r1 r2 with
      | Ok v => bool_decide (v ∈ [1; 3; 4; 5])
                && bool_decide (bool_decide (v = 5)
                                = bool_decide (RASHI_LORDS !! r1 = RASHI_LORDS !! r2))
      | Raise _ => false
      end = true).
    { by_rashi_pairs
        (fun a b =>
           match maitri_score a b with
           | Ok v => bool_decide (v ∈ [1; 3; 4; 5])
                     && bool_decide (bool_decide (v = 5)
                                     = bool_decide (RASHI_LORDS !! a = RASHI_LORDS !! b))
           | Raise _ => false
           end) Hr1 Hr2. }
    destruct (maitri_score r1 r2) as [v|e]; [|discriminate].
    apply andb_true_iff in Hcheck as [Hin Hfive].
    apply bool_decide_eq_true in Hin. apply bool_decide_eq_true in Hfive.
    exists v. split; [reflexivity|]. split; [exact Hin|].
    split.
    + intros Hv. apply (bool_decide_eq_true_2 (v = 5)) in Hv.
      rewrite Hfive in Hv. apply bool_decide_eq_true in Hv. exact Hv.
    + intros Hl. apply (bool_decide_eq_true_2 _) in Hl.
      rewrite <- Hfive in Hl. apply bool_decide_eq_true in Hl. exact Hl.
Qed.

Lemma X5_maitri_never_zero_witness :
  valid_rashi 5 ∧ valid_rashi 7
  ∧ ∃ v, maitri_score 5 7 = Ok v ∧ v ∈ [1; 3; 4; 5]
         ∧ (v = 5 ↔ RASHI_LORDS !! 5 = RASHI_LORDS !! 7).
Proof.
  assert (H5 : valid_rashi 5) by (unfold valid_rashi; lia).
  assert (H7 : valid_rashi 7) by (unfold valid_rashi; lia).
  split; [exact H5|]. split; [exact H7|].
  exact (proj2 X5_maitri_never_zero 5 7 H5 H7).
Defined.

(** ** The range of the total *)

(** X6.  The total of a scoring call on valid inputs lies between 3.5 and
    34.5, and both ends occur: the four sign-based factors sum to between 2
    and 15, the four asterism-based ones to between 1.5 and 19.5.  The
    nominal maximum 36 is never reached. *)
Theorem X6_total_range :
  (∀ r1 n1 p1 r2 n2 p2,
     valid_rashi r1 → valid_nakshatra n1 →
     valid_rashi r2 → valid_nakshatra n2 →
     ∃ ak, compatibility_ashtakoota r1 n1 p1 r2 n2 p2 = Ok ak
           ∧ (7 # 2 <= total ak <= 69 # 2)%Q)
  ∧ (∃ ak, compatibility_ashtakoota 3 2 1 4 23 1 = Ok ak ∧ total ak = (7 # 2)%Q)
  ∧ (∃ ak, compatibility_ashtakoota 1 2 1 1 27 1 = Ok ak ∧ total ak = (69 # 2)%Q).
Proof.
  split; [|split; eexists; split; vm_compute; reflexivity].
  intros r1 n1 p1 r2 n2 p2 Hr1 Hn1 Hr2 Hn2.
  destruct (compatibility_ashtakoota_scored r1 n1 p1 r2 n2 p2 Hr1 Hn1 Hr2 Hn2)
    as (ak & Hak & Hs).
  exists ak. split; [exact Hak|].
  assert (Hsign : sign_part_between 2 15 r1 r2 = true).
  { by_rashi_pairs (sign_part_between 2 15) Hr1 Hr2. }
  assert (Hast : asterism_part_between (3 # 2) (39 # 2) n1 n2 = true).
  { by_nakshatra_pairs (asterism_part_between (3 # 2) (39 # 2)) Hn1 Hn2. }
  destruct Hs as [varna vashya yoni maitri gana nadi
                  Hvarna Hvashya Hyoni Hmaitri Hgana Hnadi sc].
  unfold sign_part_between in Hsign. rewrite Hvarna, Hvashya, Hmaitri in Hsign.
  unfold asterism_part_between in Hast. rewrite Hyoni, Hgana, Hnadi in Hast.
  cbv zeta in Hsign, Hast.
  apply andb_true_iff in Hsign as [Hslo Hshi].
  apply Z.leb_le in Hslo, Hshi.
  apply andb_true_iff in Hast as [Halo Hahi].
  apply Qle_bool_iff in Halo, Hahi.
  pose proof (Z_between_Q 2 _ 15 (conj Hslo Hshi)) as Hsq.
  assert (Hsum : (inject_Z (varna + vashya + maitri + bhakoot_score r1 r2)
                  == inject_Z varna + inject_Z vashya + inject_Z maitri
                     + inject_Z (bhakoot_score r1 r2))%Q).
  { rewrite !inject_Z_plus. reflexivity. }
  assert (Hsum' : (inject_Z (yoni + gana + nadi)
                   == inject_Z yoni + inject_Z gana + inject_Z nadi)%Q).
  { rewrite !inject_Z_plus. reflexivity. }
  cbn [total]. subst sc. rewrite py_sum_literal.
  lra.
Qed.

Lemma X6_total_range_witness :
  valid_rashi 1 ∧ valid_nakshatra 5 ∧ valid_rashi 3 ∧ valid_nakshatra 7
  ∧ ∃ ak, compatibility_ashtakoota 1 5 2 3 7 1 = Ok ak
          ∧ (7 # 2 <= total ak <= 69 # 2)%Q.
Proof.
  assert (Hr1 : valid_rashi 1) by (unfold valid_rashi; lia).
  assert (Hr3 : valid_rashi 3) by (unfold valid_rashi; lia).
  assert (Hn5 : valid_nakshatra 5) by (unfold valid_nakshatra; lia).
  assert (Hn7 : valid_nakshatra 7) by (unfold valid_nakshatra; lia).
  split; [exact Hr1|]. split; [exact Hn5|]. split; [exact Hr3|].
  split; [exact Hn7|].
  exact (proj1 X6_total_range 1 5 2 3 7 1 Hr1 Hn5 Hr3 Hn7).
Defined.

(** * Further properties of the service *)

(** ** What the fold does to the total *)

Lemma py_sum_dict_set (d : pydict Q) k v old :
  dict_get d k = Some old →
  (py_sum (dict_values (dict_set d k v)) == py_sum (dict_values d) - old + v)%Q.
Proof.
  unfold dict_values.
  induction d as [|[k0 v0] d IH]; cbn [dict_get dict_set]; [discriminate|].
  destruct (bool_decide (k0 = k)).
  - intros [= ->]. rewrite !fmap_cons, !py_sum_cons. cbn [snd]. ring.
  - intros Hget. rewrite !fmap_cons, !py_sum_cons, (IH Hget). cbn [snd]. ring.
Qed.

Lemma Qmin_or_0 (b y : Q) : (Qmin 7 (or_0 b + or_0 y) == Qmin 7 (b + y))%Q.
Proof. rewrite !or_0_eq. reflexivity. Qed.

(** X7.  For any scoring result that has a Bhakoot score [b] and a Yoni
    score [y], the folded total is the sum of the original scores minus
    [b + y] plus [min(7, b + y)]: the fold never raises the total, leaves it
    unchanged when [b + y <= 7], and otherwise lowers it by [b + y - 7]. *)
Theorem X7_fold_total_law ak b y :
  dict_get (scores ak) "Bhakoot" = Some b →
  dict_get (scores ak) "Yoni" = Some y →
  let before := py_sum (dict_values (scores ak)) in
  (total (friendship_fold ak) == before - (b + y) + Qmin 7 (b + y))%Q
  ∧ (total (friendship_fold ak) <= before)%Q
  ∧ ((b + y <= 7)%Q → (total (friendship_fold ak) == before)%Q)
  ∧ ((7 <= b + y)%Q → (total (friendship_fold ak) == before - (b + y - 7))%Q).
Proof.
  intros Hb Hy before.
  assert (Hlaw : (total (friendship_fold ak)
                  == before - (b + y) + Qmin 7 (b + y))%Q).
  { rewrite friendship_fold_total, py_sum_or_0.
    unfold friendship_fold. cbn [scores]. rewrite Hb, Hy. cbn [default from_option id].
    rewrite (py_sum_dict_set _ "Yoni" 0%Q y)
      by (rewrite dict_get_set_ne by discriminate; exact Hy).
    rewrite (py_sum_dict_set _ "Bhakoot" _ b Hb), Qmin_or_0.
    unfold before. ring. }
  split; [exact Hlaw|]. split; [|split].
  - rewrite Hlaw. pose proof (Q.le_min_r 7 (b + y)) as Hmin. lra.
  - intros Hle. rewrite Hlaw, (Q.min_r 7 (b + y) Hle). ring.
  - intros Hle. rewrite Hlaw, (Q.min_l 7 (b + y) Hle). ring.
Qed.

Lemma X7_fold_total_law_witness :
  let ak := {| scores := scores_literal 1 2 3 4 5 6 7 8;
               total := 36;
               explanation := explanation_literal;
               dosha_cancellation := [("Nadi", false); ("Bhakoot", false)] |} in
  dict_get (scores ak) "Bhakoot" = Some 7%Q
  ∧ dict_get (scores ak) "Yoni" = Some 4%Q
  ∧ (total (friendship_fold ak) <= py_sum (dict_values (scores ak)))%Q.
Proof.
  intros ak.
  assert (Hb : dict_get (scores ak) "Bhakoot" = Some 7%Q) by reflexivity.
  assert (Hy : dict_get (scores ak) "Yoni" = Some 4%Q) by reflexivity.
  split; [exact Hb|]. split; [exact Hy|].
  exact (proj1 (proj2 (X7_fold_total_law ak 7%Q 4%Q Hb Hy))).
Defined.

(** ** Folding twice *)

Lemma dict_set_same {V} (d : pydict V) k v :
  dict_get d k = Some v → dict_set d k v = d.
Proof.
  induction d as [|[k0 v0] d IH]; simpl; [discriminate|].
  destruct (bool_decide (k0 = k)).
  - intros [= ->]. reflexivity.
  - intros Hget. rewrite (IH Hget). reflexivity.
Qed.

(** X8.  The fold is idempotent: folding a folded result again changes no
    score (each entry is the same rational), no key, not the total, and
    leaves the notes and the dosha flags as they are.  This holds for every
    result, whether or not it had Bhakoot and Yoni entries. *)
Theorem X8_fold_idempotent ak :
  let once := friendship_fold ak in
  let twice := friendship_fold once in
  (∀ name, option_Forall2 Qeq (dict_get (scores twice) name)
                              (dict_get (scores once) name))
  ∧ dict_keys (scores twice) = dict_keys (scores once)
  ∧ (total twice == total once)%Q
  ∧ explanation twice = explanation once
  ∧ dosha_cancellation twice = dosha_cancellation once.
Proof.
  intros once twice. subst twice.
  assert (Hyoni : dict_get (scores once) "Yoni" = Some 0%Q).
  { subst once. unfold friendship_fold. cbn [scores]. apply dict_get_set_eq. }
  assert (Hbhakoot : ∃ x, dict_get (scores once) "Bhakoot" = Some (Qmin 7 x)).
  { subst once. unfold friendship_fold. cbn [scores]. eexists.
    rewrite dict_get_set_ne by discriminate. apply dict_get_set_eq. }
  destruct Hbhakoot as [x Hbhakoot].
  assert (Hnotes :
    dict_get (explanation once) "Yoni" = Some yoni_friendship_note
    ∧ dict_get (explanation once) "Bhakoot"
      = Some "Bhakoot (Emotional): Includes Yoni-derived closeness for friendship."
    ∧ dict_get (explanation once) "Vashya"
      = Some "Vashya (Mutual Influence): Based on Rashi mutual influence for friendship compatibility.").
  { subst once. unfold friendship_fold. cbn [explanation]. repeat split.
    - rewrite !dict_get_set_ne by discriminate. apply dict_get_set_eq.
    - rewrite dict_get_set_ne by discriminate. apply dict_get_set_eq.
    - apply dict_get_set_eq. }
  destruct Hnotes as (HnY & HnB & HnV).
  assert (Htotal : (total once == py_sum (dict_values (scores once)))%Q).
  { subst once. rewrite friendship_fold_total. apply py_sum_or_0. }
  assert (Hagain : (Qmin 7 (or_0 (Qmin 7 x) + or_0 0) == Qmin 7 x)%Q).
  { rewrite Qmin_or_0. rewrite Qplus_0_r.
    apply Q.min_r. apply Q.le_min_l. }
  clearbody once.
  unfold friendship_fold.
  cbn [scores total explanation dosha_cancellation].
  rewrite Hyoni, Hbhakoot. cbn [default from_option id].
  split; [|split; [|split; [|split]]].
  - intros name.
    destruct (decide (name = "Yoni")) as [-> | HneY].
    { rewrite dict_get_set_eq, Hyoni. constructor. reflexivity. }
    rewrite dict_get_set_ne by congruence.
    destruct (decide (name = "Bhakoot")) as [-> | HneB].
    { rewrite dict_get_set_eq, Hbhakoot. constructor. exact Hagain. }
    rewrite dict_get_set_ne by congruence.
    destruct (dict_get (scores once) name); constructor. reflexivity.
  - rewrite dict_keys_set_present.
    + apply dict_keys_set_present. exact (dict_get_keys _ _ _ Hbhakoot).
    + rewrite dict_keys_set_present by exact (dict_get_keys _ _ _ Hbhakoot).
      exact (dict_get_keys _ _ _ Hyoni).
  - rewrite py_sum_or_0.
    rewrite (py_sum_dict_set _ "Yoni" 0%Q 0%Q)
      by (rewrite dict_get_set_ne by discriminate; exact Hyoni).
    rewrite (py_sum_dict_set _ "Bhakoot" _ _ Hbhakoot), Hagain, Htotal.
    ring.
  - fold yoni_friendship_note.
    rewrite (dict_set_same _ "Yoni" _ HnY).
    rewrite (dict_set_same _ "Bhakoot" _ HnB).
    exact (dict_set_same _ "Vashya" _ HnV).
  - reflexivity.
Qed.

(** ** Who is the user does not matter for the total *)

Lemma hetero_love_swap kind gA gB :
  hetero_love kind gA gB = hetero_love kind gB gA.
Proof.
  apply eq_true_iff_eq. rewrite !hetero_love_iff.
  unfold romantic_opposite. tauto.
Qed.

Lemma nadi_dosha_cancel_swap r1 n1 r2 n2 :
  nadi_dosha_cancel r1 n1 r2 n2 = nadi_dosha_cancel r2 n2 r1 n1.
Proof.
  apply eq_true_iff_eq. rewrite !nadi_dosha_cancel_iff. lia.
Qed.

Lemma bhakoot_dosha_cancel_swap r1 r2 :
  bhakoot_dosha_cancel r1 r2 = bhakoot_dosha_cancel r2 r1.
Proof.
  apply eq_true_iff_eq. rewrite !bhakoot_dosha_cancel_iff. lia.
Qed.

(** The two orientations of a valid pair differ at most in Varna, Maitri
    and Gana. *)
Lemma scored_as_swap r1 n1 r2 n2 ak ak' :
  valid_rashi r1 → valid_nakshatra n1 →
  valid_rashi r2 → valid_nakshatra n2 →
  scored_as r1 n1 r2 n2 ak → scored_as r2 n2 r1 n1 ak' →
  ∃ varna vashya tara yoni maitri gana bhakoot nadi varna' maitri' gana',
    scores ak = scores_literal varna vashya tara yoni maitri gana bhakoot nadi
    ∧ scores ak'
      = scores_literal varna' vashya tara yoni maitri' gana' bhakoot nadi
    ∧ total ak = py_sum (dict_values (scores ak))
    ∧ total ak' = py_sum (dict_values (scores ak'))
    ∧ dosha_cancellation ak = dosha_cancellation ak'.
Proof.
  intros Hr1 Hn1 Hr2 Hn2 Hs Hs'.
  destruct Hs as [varna vashya yoni maitri gana nadi
                  _ Hvashya Hyoni _ _ Hnadi sc].
  destruct Hs' as [varna' vashya' yoni' maitri' gana' nadi'
                   _ Hvashya' Hyoni' _ _ Hnadi' sc'].
  rewrite (vashya_score_swap r2 r1 Hr2 Hr1), Hvashya in Hvashya'.
  rewrite (yoni_score_swap n2 n1 Hn2 Hn1), Hyoni in Hyoni'.
  rewrite (nadi_score_swap n2 n1 Hn2 Hn1), Hnadi in Hnadi'.
  injection Hvashya' as <-. injection Hyoni' as <-. injection Hnadi' as <-.
  subst sc sc'.
  rewrite (tara_score_swap n2 n1), (bhakoot_score_swap r2 r1 Hr2 Hr1).
  rewrite (nadi_dosha_cancel_swap r2 n2 r1 n1), (bhakoot_dosha_cancel_swap r2 r1).
  eexists _, _, _, _, _, _, _, _, _, _, _.
  repeat split; reflexivity.
Qed.

(** X9.  Exchanging the user and the counterpart (with their genders) does
    not change the reported total nor the dosha flags, for either report
    kind; when the roles are gender-defined the whole result and the single
    scorer call are identical. *)
Theorem X9_total_independent_of_caller A B gA gB kind :
  valid_profile A → valid_profile B → is_kind kind →
  ∃ ak ak' log log',
    compute_ashtakoota_raw A B gA gB kind [] = (Ok (Some ak), log)
    ∧ compute_ashtakoota_raw B A gB gA kind [] = (Ok (Some ak'), log')
    ∧ (total ak == total ak')%Q
    ∧ dosha_cancellation ak = dosha_cancellation ak'
    ∧ (romantic_opposite kind gA gB → ak = ak' ∧ log = log').
Proof.
  intros HA HB Hkind.
  destruct (score_profiles_scored A B HA HB) as (rAB & HAB & HsAB).
  destruct (score_profiles_scored B A HB HA) as (rBA & HBA & HsBA).
  destruct HA as (HrA & HnA & _). destruct HB as (HrB & HnB & _).
  destruct (scored_as_swap _ _ _ _ rAB rBA HrA HnA HrB HnB HsAB HsBA)
    as (varna & vashya & tara & yoni & maitri & gana & bhakoot & nadi
        & varna' & maitri' & gana' & Hsc & Hsc' & Htot & Htot' & Hdosha).
  assert (Hfold : (total rAB == total rBA)%Q →
                  (total (friendship_fold rAB) == total (friendship_fold rBA))%Q).
  { rewrite Htot, Htot', Hsc, Hsc', !py_sum_literal. intros Heq.
    rewrite !friendship_fold_total, !py_sum_or_0.
    rewrite (friendship_fold_literal rAB _ _ _ _ _ _ _ _ Hsc).
    rewrite (friendship_fold_literal rBA _ _ _ _ _ _ _ _ Hsc').
    rewrite !py_sum_literal. lra. }
  assert (Hrun : ∀ X Y gX gY, compute_ashtakoota_raw X Y gX gY kind [] =
            let '(r, log) := resolve_orientation X Y gX gY kind [] in
            match r with
            | Ok ak => (Ok (Some (if bool_decide (kind = Some "friendship")
                                  then friendship_fold ak else ak)), log)
            | Raise e => (Raise e, log)
            end).
  { intros X Y gX gY. unfold compute_ashtakoota_raw.
    destruct Hkind as [-> | ->]; reflexivity. }
  rewrite !Hrun.
  rewrite (resolve_orientation_eq A B gA gB kind rAB rBA HAB HBA).
  rewrite (resolve_orientation_eq B A gB gA kind rBA rAB HBA HAB).
  rewrite (hetero_love_swap kind gB gA).
  destruct (hetero_love kind gA gB) eqn:Hh.
  - apply hetero_love_iff in Hh.
    destruct Hh as (-> & [[-> ->] | [-> ->]]);
      cbn [bool_decide decide_rel]; eexists _, _, _, _;
      (split; [reflexivity|]); (split; [reflexivity|]);
      repeat split; reflexivity.
  - assert (Hnot : ¬ romantic_opposite kind gA gB).
    { intros Hro. apply hetero_love_iff in Hro. congruence. }
    destruct (Qle_bool (total rBA) (total rAB)) eqn:H1;
      destruct (Qle_bool (total rAB) (total rBA)) eqn:H2;
      eexists _, _, _, _;
      (split; [reflexivity|]); (split; [reflexivity|]).
    + apply Qle_bool_iff in H1, H2.
      assert (Heq : (total rAB == total rBA)%Q) by (apply Qle_antisym; assumption).
      split; [|split; [|intros Hro; contradiction]].
      * destruct (bool_decide (kind = Some "friendship"));
          [exact (Hfold Heq) | exact Heq].
      * destruct (bool_decide (kind = Some "friendship")); exact Hdosha.
    + split; [reflexivity|]. split; [reflexivity|]. intros Hro; contradiction.
    + split; [reflexivity|]. split; [reflexivity|]. intros Hro; contradiction.
    + exfalso.
      assert (Hlt1 : ¬ (total rBA <= total rAB)%Q).
      { intros Hle. apply Qle_bool_iff in Hle. congruence. }
      assert (Hlt2 : ¬ (total rAB <= total rBA)%Q).
      { intros Hle. apply Qle_bool_iff in Hle. congruence. }
      apply Qnot_le_lt in Hlt1, Hlt2.
      exact (Qlt_irrefl _ (Qlt_trans _ _ _ Hlt1 Hlt2)).
Qed.

Lemma X9_total_independent_of_caller_witness :
  let A := {| moon_rashi := 3; nakshatra := 6; pada := 1 |} in
  let B := {| moon_rashi := 4; nakshatra := 8; pada := 2 |} in
  valid_profile A ∧ valid_profile B ∧ is_kind (Some "friendship")
  ∧ ∃ ak ak' log log',
      compute_ashtakoota_raw A B None None (Some "friendship") []
      = (Ok (Some ak), log)
      ∧ compute_ashtakoota_raw B A None None (Some "friendship") []
        = (Ok (Some ak'), log')
      ∧ (total ak == total ak')%Q
      ∧ dosha_cancellation ak = dosha_cancellation ak'
      ∧ (romantic_opposite (Some "friendship") None None →
         ak = ak' ∧ log = log').
Proof.
  intros A B.
  assert (HA : valid_profile A) by (unfold valid_profile; simpl; repeat split; lia).
  assert (HB : valid_profile B) by (unfold valid_profile; simpl; repeat split; lia).
  assert (Hk : is_kind (Some "friendship")) by (right; reflexivity).
  split; [exact HA|]. split; [exact HB|]. split; [exact Hk|].
  exact (X9_total_independent_of_caller A B None None (Some "friendship") HA HB Hk).
Defined.

(** ** An out-of-range profile reaching the service *)

Lemma compatibility_ashtakoota_raises r1 n1 p1 r2 n2 p2 :
  ¬ (valid_rashi r1 ∧ valid_nakshatra n1 ∧ valid_rashi r2 ∧ valid_nakshatra n2) →
  ∃ k, compatibility_ashtakoota r1 n1 p1 r2 n2 p2 = Raise (KeyError (KInt k))
       ∧ k ∈ [r1; n1; r2; n2].
Proof.
  intros Hout.
  destruct (decide (valid_rashi r1)) as [Hr1 | Hr1].
  2:{ exists r1. split; [|in_literal].
      unfold compatibility_ashtakoota.
      rewrite (proj1 (varna_score_outside r1 r2) Hr1). reflexivity. }
  destruct (decide (valid_rashi r2)) as [Hr2 | Hr2].
  2:{ exists r2. split; [|in_literal].
      unfold compatibility_ashtakoota.
      rewrite (proj2 (varna_score_outside r1 r2) Hr1 Hr2). reflexivity. }
  destruct (varna_score_range r1 r2 Hr1 Hr2) as (varna & Hvarna & _).
  destruct (vashya_score_range r1 r2 Hr1 Hr2) as (vashya & Hvashya & _).
  destruct (decide (valid_nakshatra n1)) as [Hn1 | Hn1].
  2:{ exists n1. split; [|in_literal].
      unfold compatibility_ashtakoota.
      rewrite Hvarna, Hvashya, (proj1 (yoni_score_outside n1 n2) Hn1).
      reflexivity. }
  destruct (decide (valid_nakshatra n2)) as [Hn2 | Hn2]; [tauto|].
  exists n2. split; [|in_literal].
  unfold compatibility_ashtakoota.
  rewrite Hvarna, Hvashya, (proj2 (yoni_score_outside n1 n2) Hn1 Hn2).
  reflexivity.
Qed.

(** X10.  When a sign or an asterism of either profile is out of range, the
    service neither returns [None] nor a score: the [KeyError] of the first
    scorer call propagates (the [try] block of the friendship fold is not
    around that call), it carries one of the four values, and the other
    orientation is never evaluated. *)
Theorem X10_invalid_profile_raises A B gA gB kind :
  is_kind kind →
  ¬ (valid_rashi (moon_rashi A) ∧ valid_nakshatra (nakshatra A)
     ∧ valid_rashi (moon_rashi B) ∧ valid_nakshatra (nakshatra B)) →
  ∃ k log,
    compute_ashtakoota_raw A B gA gB kind [] = (Raise (KeyError (KInt k)), log)
    ∧ k ∈ [moon_rashi A; nakshatra A; moon_rashi B; nakshatra B]
    ∧ (log = [(A, B)] ∨ log = [(B, A)]).
Proof.
  intros Hkind Hout.
  destruct (compatibility_ashtakoota_raises
              (moon_rashi A) (nakshatra A) (pada A)
              (moon_rashi B) (nakshatra B) (pada B) Hout) as (k & Hk & Hkin).
  assert (Hout' : ¬ (valid_rashi (moon_rashi B) ∧ valid_nakshatra (nakshatra B)
                     ∧ valid_rashi (moon_rashi A) ∧ valid_nakshatra (nakshatra A)))
    by tauto.
  destruct (compatibility_ashtakoota_raises
              (moon_rashi B) (nakshatra B) (pada B)
              (moon_rashi A) (nakshatra A) (pada A) Hout') as (k' & Hk' & Hkin').
  assert (Hkin'' : k' ∈ [moon_rashi A; nakshatra A; moon_rashi B; nakshatra B]).
  { split_literal Hkin'; subst k'; in_literal. }
  unfold compute_ashtakoota_raw.
  assert (Hguard : negb (bool_decide (kind = Some "love")
                         || bool_decide (kind = Some "friendship")) = false).
  { destruct Hkind as [-> | ->]; reflexivity. }
  rewrite Hguard. unfold mbind at 1. unfold traced_bind.
  unfold resolve_orientation.
  destruct (hetero_love kind gA gB).
  - destruct (bool_decide (gA = Some "male")); unfold run_ak.
    + rewrite Hk. exists k, [(A, B)]. auto.
    + rewrite Hk'. exists k', [(B, A)]. auto.
  - unfold mbind, traced_bind, run_ak. rewrite Hk.
    exists k, [(A, B)]. auto.
Qed.

Lemma X10_invalid_profile_raises_witness :
  let A := {| moon_rashi := 0; nakshatra := 1; pada := 1 |} in
  let B := {| moon_rashi := 2; nakshatra := 4; pada := 1 |} in
  is_kind (Some "friendship")
  ∧ ¬ (valid_rashi (moon_rashi A) ∧ valid_nakshatra (nakshatra A)
       ∧ valid_rashi (moon_rashi B) ∧ valid_nakshatra (nakshatra B))
  ∧ ∃ k log,
      compute_ashtakoota_raw A B None None (Some "friendship") []
      = (Raise (KeyError (KInt k)), log)
      ∧ k ∈ [moon_rashi A; nakshatra A; moon_rashi B; nakshatra B]
      ∧ (log = [(A, B)] ∨ log = [(B, A)]).
Proof.
  intros A B.
  assert (Hk : is_kind (Some "friendship")) by (right; reflexivity).
  assert (Hout : ¬ (valid_rashi (moon_rashi A) ∧ valid_nakshatra (nakshatra A)
                    ∧ valid_rashi (moon_rashi B) ∧ valid_nakshatra (nakshatra B))).
  { unfold valid_rashi. simpl. lia. }
  split; [exact Hk|]. split; [exact Hout|].
  exact (X10_invalid_profile_raises A B None None (Some "friendship") Hk Hout).
Defined.

(** ** The service from its first line *)

Section CollaboratorProperties.
Variable datetime : Type.
Variable geocode : string -> geocoded.
Variable panchanga_of : datetime -> Q -> Q -> panchanga.
Variable json_dumps : ashtakoota -> string.

Lemma truthy_float_nonzero q : ¬ (q == 0)%Q → truthy_float (Some q) = true.
Proof.
  intros Hq. cbn [truthy_float]. apply negb_true_iff.
  destruct (Qeq_bool q 0) eqn:Hb; [|reflexivity].
  apply Qeq_bool_iff in Hb. contradiction.
Qed.

Lemma truthy_str_name city :
  truthy_str city = true ↔ ∃ name, city = Some name ∧ name ≠ "".
Proof.
  unfold truthy_str. split.
  - destruct city as [name|]; [|discriminate].
    intros Hname. apply negb_true_iff, bool_decide_eq_false in Hname. eauto.
  - intros (name & -> & Hname).
    apply negb_true_iff, bool_decide_eq_false. exact Hname.
Qed.

Lemma classic_guards (user counterpart : person datetime) kind :
  (is_kind kind ∧ has_birth_details user ∧ has_birth_details counterpart)
  ∨ ¬ (is_kind kind ∧ has_birth_details user ∧ has_birth_details counterpart).
Proof.
  assert (Hdetails : ∀ p : person datetime,
            has_birth_details p ∨ ¬ has_birth_details p).
  { intros p. unfold has_birth_details.
    destruct (truthy_str (city_of_birth p)) eqn:Hcity.
    - apply truthy_str_name in Hcity.
      destruct (time_of_birth p) as [t|].
      + left. split; [exact Hcity | eexists; reflexivity].
      + right. intros (_ & [t Ht]). discriminate Ht.
    - right. intros (Hname & _). apply truthy_str_name in Hname. congruence. }
  assert (Hkind : is_kind kind ∨ ¬ is_kind kind).
  { unfold is_kind.
    destruct (decide (kind = Some "love")) as [H1 | H1]; [tauto|].
    destruct (decide (kind = Some "friendship")) as [H2 | H2]; tauto. }
  destruct Hkind, (Hdetails user), (Hdetails counterpart); tauto.
Qed.

Lemma usable_place_coordinates city p_lat p_lon :
  _get_lat_lon geocode city = Ok (p_lat, p_lon) →
  truthy_float p_lat = true →
  truthy_float p_lon = true →
  usable_place geocode city.
Proof.
  unfold _get_lat_lon, usable_place.
  destruct city as [name|]; [|intros [= <- <-]; discriminate].
  destruct (bool_decide (name = "")) eqn:Hname; [intros [= <- <-]; discriminate|].
  apply bool_decide_eq_false in Hname.
  destruct (geocode name) as [latitude longitude| | | |description] eqn:Hgeo;
    try (intros [= <- <-]; discriminate).
  intros [= <- <-]. cbn [truthy_float]. intros Hlat Hlon.
  apply negb_true_iff in Hlat, Hlon.
  exists name, latitude, longitude.
  split; [reflexivity|]. split; [exact Hname|]. split; [exact Hgeo|]. split.
  - intros Hz. apply Qeq_bool_iff in Hz. congruence.
  - intros Hz. apply Qeq_bool_iff in Hz. congruence.
Qed.

Lemma lookup_handled_returns city :
  lookup_handled geocode city →
  ∃ lat lon, _get_lat_lon geocode city = Ok (lat, lon).
Proof.
  unfold lookup_handled, _get_lat_lon. intros Hhandled.
  destruct city as [name|]; [|eauto].
  destruct (bool_decide (name = "")); [eauto|].
  destruct (geocode name) as [latitude longitude| | | |description] eqn:Hgeo;
    eauto.
  exfalso. exact (Hhandled name description eq_refl Hgeo).
Qed.

Lemma lookup_raises name description :
  name ≠ "" → geocode name = OtherException description →
  _get_lat_lon geocode (Some name) = Raise (ExternalError description).
Proof.
  intros Hname Hgeo. unfold _get_lat_lon.
  rewrite bool_decide_eq_false_2 by exact Hname. rewrite Hgeo. reflexivity.
Qed.

(** The service once the kind and the birth details have passed the guards
    of lines 29-36. *)
Lemma compute_ashtakoota_raw_entry_guarded
    (user counterpart : person datetime) kind tu tc log :
  is_kind kind →
  truthy_str (city_of_birth user) = true → time_of_birth user = Some tu →
  truthy_str (city_of_birth counterpart) = true →
  time_of_birth counterpart = Some tc →
  compute_ashtakoota_raw_entry datetime geocode panchanga_of
    user counterpart kind log
  = match _get_lat_lon geocode (city_of_birth user) with
    | Raise e => (Raise e, log)
    | Ok (p_lat, p_lon) =>
        match _get_lat_lon geocode (city_of_birth counterpart) with
        | Raise e => (Raise e, log)
        | Ok (o_lat, o_lon) =>
            if negb (truthy_float p_lat && truthy_float p_lon
                     && truthy_float o_lat && truthy_float o_lon)
            then (Ok None, log)
            else
              match p_lon, p_lat, o_lon, o_lat with
              | Some p_lon, Some p_lat, Some o_lon, Some o_lat =>
                  compute_ashtakoota_raw
                    (panchanga_of tu p_lon p_lat) (panchanga_of tc o_lon o_lat)
                    (gender user) (gender counterpart) kind log
              | _, _, _, _ => (Ok None, log)
              end
        end
    end.
Proof.
  intros Hkind Hcu Htu Hcc Htc. unfold compute_ashtakoota_raw_entry.
  assert (Hguard : negb (bool_decide (kind = Some "love")
                         || bool_decide (kind = Some "friendship")) = false).
  { destruct Hkind as [-> | ->]; reflexivity. }
  rewrite Hguard, Hcu, Htu, Hcc, Htc. cbn [negb orb is_Some_b].
  unfold mbind, traced_bind, untraced.
  destruct (_get_lat_lon geocode (city_of_birth user)) as [[p_lat p_lon]|e];
    [|reflexivity].
  destruct (_get_lat_lon geocode (city_of_birth counterpart))
    as [[o_lat o_lon]|e]; [|reflexivity].
  destruct (negb (truthy_float p_lat && truthy_float p_lon
                  && truthy_float o_lat && truthy_float o_lon));
    [reflexivity|].
  destruct p_lon, p_lat, o_lon, o_lat; reflexivity.
Qed.


(** X12.  The context helper returns a JSON string only for exactly one
    participant that resolves to a person other than the current user: with
    no participant, with more than one, with the current user as the
    participant, or with an unknown user or participant it returns [None]
    and the scorer is not called.  A returned string is the serialisation of
    what the service computes for the current user and that participant. *)
Theorem X12_context_needs_one_other_participant
    (db : database datetime) (current_user_id : string)
    (participant_user_ids participant_partner_ids : option (list string))
    (kind : option string) log :
  let uids := default [] participant_user_ids in
  let pids := default [] participant_partner_ids in
  let run := compute_ashtakoota_raw_json_for_context datetime geocode
               panchanga_of json_dumps db current_user_id
               participant_user_ids participant_partner_ids kind log in
  ((length uids + length pids ≠ 1)%nat → run = (Ok None, log))
  ∧ (head uids = Some current_user_id → run = (Ok None, log))
  ∧ (users db !! current_user_id = None → run = (Ok None, log))
  ∧ (∀ s log', run = (Ok (Some s), log') →
       ∃ main_user counterpart ak,
         users db !! current_user_id = Some main_user
         ∧ ((∃ other, uids = [other] ∧ pids = [] ∧ other ≠ current_user_id
                      ∧ users db !! other = Some counterpart)
            ∨ (∃ partner, uids = [] ∧ pids = [partner]
                          ∧ partners db !! partner = Some counterpart))
         ∧ compute_ashtakoota_raw_entry datetime geocode panchanga_of
             main_user counterpart kind log = (Ok (Some ak), log')
         ∧ s = json_dumps ak).
Proof.
  intros uids pids run. subst run.
  unfold compute_ashtakoota_raw_json_for_context.
  fold uids. fold pids.
  destruct (negb (bool_decide (kind = Some "love")
                  || bool_decide (kind = Some "friendship"))) eqn:Hkind.
  { repeat split; try reflexivity. intros s log' Hrun. discriminate Hrun. }
  destruct (bool_decide (length uids + length pids = 1)%nat) eqn:Hone.
  2:{ repeat split; try reflexivity. intros s log' Hrun. discriminate Hrun. }
  apply bool_decide_eq_true in Hone. cbn [negb].
  destruct (users db !! current_user_id) as [main_user|] eqn:Hmain.
  2:{ repeat split; try reflexivity; try (intros; contradiction).
      intros s log' Hrun. discriminate Hrun. }
  split; [intros Hne; contradiction|].
  destruct uids as [|other rest] eqn:Huids.
  - split; [discriminate|]. split; [discriminate|].
    destruct pids as [|partner rest'] eqn:Hpids; [discriminate Hone|].
    destruct rest'; [|discriminate Hone].
    intros s log'.
    destruct (partners db !! partner) as [counterpart|] eqn:Hc;
      [|intros Hrun; discriminate Hrun].
    unfold mbind, traced_bind.
    destruct (compute_ashtakoota_raw_entry datetime geocode panchanga_of
                main_user counterpart kind log) as [[[ak|]|e] log''] eqn:Hentry;
      intros Hrun; try discriminate Hrun.
    injection Hrun as <- <-.
    exists main_user, counterpart, ak. split; [reflexivity|].
    split; [right; exists partner; auto|]. split; [exact Hentry | reflexivity].
  - destruct rest; [|discriminate Hone].
    destruct pids as [|? ?] eqn:Hpids; [|discriminate Hone].
    split.
    { intros [= ->]. rewrite bool_decide_eq_false_2 by tauto. reflexivity. }
    split; [discriminate|].
    intros s log'.
    destruct (bool_decide (other ≠ current_user_id)) eqn:Hother;
      [|intros Hrun; discriminate Hrun].
    apply bool_decide_eq_true in Hother.
    destruct (users db !! other) as [counterpart|] eqn:Hc;
      [|intros Hrun; discriminate Hrun].
    unfold mbind, traced_bind.
    destruct (compute_ashtakoota_raw_entry datetime geocode panchanga_of
                main_user counterpart kind log) as [[[ak|]|e] log''] eqn:Hentry;
      intros Hrun; try discriminate Hrun.
    injection Hrun as <- <-.
    exists main_user, counterpart, ak. split; [reflexivity|].
    split; [left; exists other; auto|]. split; [exact Hentry | reflexivity].
Qed.

End CollaboratorProperties.


Lemma X12_context_needs_one_other_participant_witness :
  let db := {| users := {["u1" := example_person "Chennai" 100]};
               partners := ∅ |} in
  head (default [] (Some ["u1"])) = Some "u1"
  ∧ compute_ashtakoota_raw_json_for_context Z example_geocode
      example_panchanga_of (fun _ => "{}") db "u1" (Some ["u1"]) None
      (Some "love") [] = (Ok None, []).
Proof.
  intros db. split; [reflexivity|].
  exact (proj1 (proj2 (X12_context_needs_one_other_participant
                         Z example_geocode example_panchanga_of (fun _ => "{}")
                         db "u1" (Some ["u1"]) None (Some "love") []))
           eq_refl).
Defined.

(** * The endpoint's own scoring call *)

Lemma endpoint_roles_as_service kind gA gB :
  (bool_decide (kind = Some "love")
   && is_male_or_female (if truthy_str gA then gA else Some "unknown")
   && is_male_or_female gB
   && bool_decide ((if truthy_str gA then gA else Some "unknown") ≠ gB))
  = hetero_love kind gA gB.
Proof.
  unfold hetero_love.
  destruct gA as [s|]; cbn [truthy_str].
  - destruct (bool_decide (s = "")) eqn:Hs; cbn [negb]; [|reflexivity].
    apply bool_decide_eq_true in Hs. subst s.
    destruct (bool_decide (kind = Some "love")); reflexivity.
  - destruct (bool_decide (kind = Some "love")); reflexivity.
Qed.

Lemma calculate_compatibility_scoring_eq A B gA gB kind :
  calculate_compatibility_scoring A B gA gB kind =
    if hetero_love kind gA gB then
      if bool_decide (gA = Some "male")
      then score_profiles A B else score_profiles B A
    else score_profiles A B.
Proof.
  unfold calculate_compatibility_scoring. cbv zeta.
  rewrite endpoint_roles_as_service.
  destruct (hetero_love kind gA gB) eqn:Hh; [|reflexivity].
  apply hetero_love_iff in Hh.
  destruct Hh as (_ & [[-> _] | [-> _]]); reflexivity.
Qed.

(** X13.  For a Romantic report on valid profiles the endpoint and the
    service agree whenever the roles are gender-defined; otherwise the
    endpoint scores the user as primary only, while the service also tries
    the other orientation, so the service's total is never below the
    endpoint's. *)
Theorem X13_endpoint_never_above_service A B gA gB :
  valid_profile A → valid_profile B →
  ∃ endpoint service log,
    calculate_compatibility_scoring A B gA gB (Some "love") = Ok endpoint
    ∧ compute_ashtakoota_raw A B gA gB (Some "love") []
      = (Ok (Some service), log)
    ∧ (total endpoint <= total service)%Q
    ∧ (romantic_opposite (Some "love") gA gB → endpoint = service)
    ∧ (¬ romantic_opposite (Some "love") gA gB →
       score_profiles A B = Ok endpoint).
Proof.
  intros HA HB.
  destruct (score_profiles_scored A B HA HB) as (rAB & HAB & _).
  destruct (score_profiles_scored B A HB HA) as (rBA & HBA & _).
  rewrite calculate_compatibility_scoring_eq.
  unfold compute_ashtakoota_raw. cbn [bool_decide decide_rel negb orb].
  change (negb _) with false. cbv iota.
  unfold mbind at 1. unfold traced_bind.
  rewrite (resolve_orientation_eq A B gA gB (Some "love") rAB rBA HAB HBA).
  rewrite HAB, HBA.
  destruct (hetero_love (Some "love") gA gB) eqn:Hh.
  - destruct (bool_decide (gA = Some "male")); eexists _, _, _;
      (split; [reflexivity|]); (split; [reflexivity|]);
      (split; [apply Qle_refl|]); (split; [reflexivity|]);
      intros Hnot; exfalso; apply Hnot, hetero_love_iff; exact Hh.
  - assert (Hnot : ¬ romantic_opposite (Some "love") gA gB).
    { intros Hro. apply hetero_love_iff in Hro. congruence. }
    destruct (Qle_bool (total rBA) (total rAB)) eqn:Hle; eexists _, _, _;
      (split; [reflexivity|]); (split; [reflexivity|]).
    + split; [apply Qle_refl|]. split; [intros Hro; contradiction | reflexivity].
    + split; [|split; [intros Hro; contradiction | reflexivity]].
      destruct (Qlt_le_dec (total rAB) (total rBA)) as [Hlt | Hge].
      * apply Qlt_le_weak. exact Hlt.
      * apply Qle_bool_iff in Hge. congruence.
Qed.

Lemma X13_endpoint_never_above_service_witness :
  let A := {| moon_rashi := 3; nakshatra := 6; pada := 1 |} in
  let B := {| moon_rashi := 4; nakshatra := 8; pada := 2 |} in
  valid_profile A ∧ valid_profile B
  ∧ ∃ endpoint service log,
      calculate_compatibility_scoring A B None None (Some "love") = Ok endpoint
      ∧ compute_ashtakoota_raw A B None None (Some "love") []
        = (Ok (Some service), log)
      ∧ (total endpoint <= total service)%Q
      ∧ (romantic_opposite (Some "love") None None → endpoint = service)
      ∧ (¬ romantic_opposite (Some "love") None None →
         score_profiles A B = Ok endpoint).
Proof.
  intros A B.
  assert (HA : valid_profile A) by (unfold valid_profile; simpl; repeat split; lia).
  assert (HB : valid_profile B) by (unfold valid_profile; simpl; repeat split; lia).
  split; [exact HA|]. split; [exact HB|].
  exact (X13_endpoint_never_above_service A B None None HA HB).
Defined.

(** X14.  The maximum the endpoints report ([_calculate_max_score]: 36, or
    36 - 4 for a friendship report) is never exceeded by the service's
    total for that kind.  The endpoint's own scoring call is not folded:
    its total stays within 36, but for a friendship report it can exceed
    the reported maximum of 32 (34.5 for signs 1 and 1, asterisms 2 and
    27). *)
Theorem X14_totals_against_reported_maximum :
  (∀ A B gA gB kind,
     valid_profile A → valid_profile B → is_kind kind →
     ∃ service endpoint log,
       compute_ashtakoota_raw A B gA gB kind [] = (Ok (Some service), log)
       ∧ (total service <= inject_Z (_calculate_max_score kind))%Q
       ∧ calculate_compatibility_scoring A B gA gB kind = Ok endpoint
       ∧ (total endpoint <= 36)%Q)
  ∧ ∃ endpoint,
      calculate_compatibility_scoring
        {| moon_rashi := 1; nakshatra := 2; pada := 1 |}
        {| moon_rashi := 1; nakshatra := 27; pada := 1 |}
        None None (Some "friendship") = Ok endpoint
      ∧ (inject_Z (_calculate_max_score (Some "friendship")) < total endpoint)%Q.
Proof.
  split; [|eexists; split; [vm_compute; reflexivity | reflexivity]].
  intros A B gA gB kind HA HB Hkind.
  assert (Hbound : ∀ X Y ak, valid_profile X → valid_profile Y →
            scored_pair X Y ak →
            (total ak <= 36)%Q ∧ (total (friendship_fold ak) <= 32)%Q).
  { intros X Y ak (HrX & HnX & _) (HrY & HnY & _) Hs.
    destruct (scored_as_ranges _ _ _ _ ak HrX HnX HrY HnY Hs)
      as (varna & vashya & yoni & maitri & gana & bhakoot & nadi & tara
          & Hranges & Hlit & Htot & _).
    split.
    - rewrite Htot, Hlit. apply (romantic_total_bound _ _ _ _ _ _ _ _ Hranges).
    - apply (friendship_total_bound _ _ _ _ _ _ _ _ Hranges ak Hlit). }
  destruct (compute_ashtakoota_raw_valid A B gA gB kind HA HB Hkind)
    as (ak & log & Hs & Hrun).
  destruct (score_profiles_scored A B HA HB) as (rAB & HAB & HsAB).
  destruct (score_profiles_scored B A HB HA) as (rBA & HBA & HsBA).
  assert (Hendpoint : ∃ endpoint,
            calculate_compatibility_scoring A B gA gB kind = Ok endpoint
            ∧ (total endpoint <= 36)%Q).
  { rewrite calculate_compatibility_scoring_eq, HAB, HBA.
    destruct (hetero_love kind gA gB);
      [destruct (bool_decide (gA = Some "male"))|]; eexists;
      (split; [reflexivity|]).
    - exact (proj1 (Hbound A B rAB HA HB HsAB)).
    - exact (proj1 (Hbound B A rBA HB HA HsBA)).
    - exact (proj1 (Hbound A B rAB HA HB HsAB)). }
  destruct Hendpoint as (endpoint & Hendpoint & Hle).
  eexists _, endpoint, log. split; [exact Hrun|].
  split; [|split; [exact Hendpoint | exact Hle]].
  assert (Hak : (total ak <= 36)%Q ∧ (total (friendship_fold ak) <= 32)%Q).
  { destruct Hs as [Hs | Hs]; eauto. }
  destruct Hkind as [-> | ->].
  - rewrite bool_decide_eq_false_2 by discriminate. exact (proj1 Hak).
  - rewrite bool_decide_eq_true_2 by reflexivity. exact (proj2 Hak).
Qed.

Lemma X14_totals_against_reported_maximum_witness :
  let A := {| moon_rashi := 1; nakshatra := 2; pada := 1 |} in
  let B := {| moon_rashi := 1; nakshatra := 27; pada := 1 |} in
  valid_profile A ∧ valid_profile B ∧ is_kind (Some "friendship")
  ∧ ∃ service endpoint log,
      compute_ashtakoota_raw A B None None (Some "friendship") []
      = (Ok (Some service), log)
      ∧ (total service <= inject_Z (_calculate_max_score (Some "friendship")))%Q
      ∧ calculate_compatibility_scoring A B None None (Some "friendship")
        = Ok endpoint
      ∧ (total endpoint <= 36)%Q.
Proof.
  intros A B.
  assert (HA : valid_profile A) by (unfold valid_profile; simpl; repeat split; lia).
  assert (HB : valid_profile B) by (unfold valid_profile; simpl; repeat split; lia).
  assert (Hk : is_kind (Some "friendship")) by (right; reflexivity).
  split; [exact HA|]. split; [exact HB|]. split; [exact Hk|].
  exact (proj1 X14_totals_against_reported_maximum A B None None
           (Some "friendship") HA HB Hk).
Defined.
